(** * MyAutoKit API: the order-creation workflow of [main.py]

    A shallow embedding of [create_order] (POST /api/orders) together with
    the pydantic models of [schemas.py] it goes through, and the properties
    of the workflow: which requests are rejected and how, what is written to
    the order collection, and how subtotal and total are computed.

    Numbers.  Python's [float] values are modelled by exact rationals [Q]:
    [+] and [*] are exact, and [round(x, 2)] is rounding to the closest
    multiple of 1/100 with ties going to the even choice, as Python defines
    it.  Binary representation error is outside the model.

    Store.  The process is modelled with an initialised store handle [db].
    The handler talks to two collections, ["product"] (read) and ["order"]
    (insert); the [World] holds both, and a trace of the store operations
    performed so far.

    Read side.  [serialize_doc], the three catalog endpoints and
    [seed_products_if_empty] work on catalog documents as dictionaries;
    they are modelled over [Dict], with the conversions that belong to
    Python and pydantic gathered in [Conversions]. *)

From Stdlib Require Import ZArith NArith QArith Qround Lqa List String Ascii Bool
  Lia.
Import ListNotations.

Open Scope string_scope.
Open Scope Z_scope.
Open Scope Q_scope.

(** ** Numbers *)

Module Py.

(** [round_half_even x]: the integer closest to [x], ties to even. *)
Definition round_half_even (x : Q) : Z :=
  let f := Qfloor x in
  match Qcompare (x - inject_Z f) (1 # 2) with
  | Lt => f
  | Gt => (f + 1)%Z
  | Eq => if Z.even f then f else (f + 1)%Z
  end.

(** [round(x, 2)] *)
Definition round2 (x : Q) : Q := round_half_even (x * 100) # 100.

(** [x or 0.0] on a float: a float is falsy exactly when it is zero. *)
Definition or_zero (x : Q) : Q := if Qeq_bool x 0 then 0 else x.

(** The pydantic constraints [ge=0] (on a float) and [ge=1] (on an int). *)
Definition ge0 (x : Q) : bool := Qle_bool 0 x.
Definition ge1 (n : Z) : bool := (1 <=? n)%Z.

End Py.

(** ** bson.ObjectId

    An [ObjectId] is twelve bytes; [ObjectId(s)] accepts a string of exactly
    24 hexadecimal digits and raises [InvalidId] on anything else.  Two ids
    are equal when their bytes are, so an id is kept as the number its
    digits denote. *)

Definition ObjectId := N.

Definition hex_digit (c : ascii) : option N :=
  let n := N_of_ascii c in
  if ((48 <=? n) && (n <=? 57))%N then Some (n - 48)%N
  else if ((97 <=? n) && (n <=? 102))%N then Some (n - 87)%N
  else if ((65 <=? n) && (n <=? 70))%N then Some (n - 55)%N
  else None.

Fixpoint hex_value (s : string) (acc : N) : option N :=
  match s with
  | EmptyString => Some acc
  | String c s' =>
      match hex_digit c with
      | Some d => hex_value s' (16 * acc + d)%N
      | None => None
      end
  end.

Definition ObjectId_of_str (oid : string) : option ObjectId :=
  if (String.length oid =? 24)%nat then hex_value oid 0%N else None.

Definition hex_char (d : N) : ascii :=
  if (d <? 10)%N then ascii_of_N (48 + d) else ascii_of_N (87 + d).

Fixpoint hex_render (digits : nat) (n : N) (acc : string) : string :=
  match digits with
  | O => acc
  | S k => hex_render k (n / 16)%N (String (hex_char (n mod 16)%N) acc)
  end.

(** [str(oid)] *)
Definition ObjectId_str (oid : ObjectId) : string := hex_render 24 oid "".

(** ** schemas.py *)

(** A document of the ["product"] collection, as far as the handler reads
    it.  The collection is schemaless: any of the three keys may be absent.
    [None] stands for a key that is absent (or, for [title] and [image],
    null: [dict.get] gives [None] for both).  A price that is present is a
    number. *)
Record Product := {
  _id : ObjectId;
  p_title : option string;
  p_price : option Q;
  p_image : option string
}.

Record OrderItem := {
  product_id : string;
  title : string;
  price : Q;
  quantity : Z;
  image : option string
}.

Record Customer := {
  name : string;
  email : string;
  phone : option string;
  address_line1 : string;
  address_line2 : option string;
  city : string;
  state : string;
  postal_code : string;
  country : string
}.

Record Order := {
  items : list OrderItem;
  customer : Customer;
  subtotal : Q;
  shipping : Q;
  total : Q;
  status : string
}.

(** [main.py]: the request model of POST /api/orders. *)
Record OrderCreate := {
  oc_items : list OrderItem;
  oc_customer : Customer;
  oc_shipping : Q
}.

(** The dictionaries collected in [normalized_items]; [title] is whatever
    [prod.get("title")] gave. *)
Record NormalizedItem := {
  ni_product_id : string;
  ni_title : option string;
  ni_price : Q;
  ni_quantity : Z;
  ni_image : option string
}.

(** ** Exceptions *)

Inductive PyError :=
| InvalidId (oid : string)
| ValidationError (model : string) (locs : list string).

(** The [detail] of an [HTTPException]: a literal message, or [str(e)] of a
    caught exception, whose text is left to the library that raised it. *)
Inductive Detail :=
| Text (s : string)
| StrOf (e : PyError).

Inductive Exn :=
| HTTPException (status_code : Z) (detail : Detail)
| Raised (e : PyError).

(** ** The store *)

Inductive Event :=
| FindOne (collection : string) (oid : ObjectId)
| InsertOne (collection : string) (oid : ObjectId).

Record World := {
  db_product : list Product;
  db_order : list (ObjectId * Order);
  trace : list Event
}.

Definition log (e : Event) (w : World) : World :=
  {| db_product := db_product w; db_order := db_order w; trace := (trace w ++ [e])%list |}.

(** ** Computations: state and exceptions *)

Definition M (A : Type) : Type := World -> (Exn + A) * World.

Definition ret {A} (a : A) : M A := fun w => (inr a, w).

Definition raise {A} (e : Exn) : M A := fun w => (inl e, w).

Definition bind {A B} (m : M A) (k : A -> M B) : M B :=
  fun w =>
    match m w with
    | (inr a, w') => k a w'
    | (inl e, w') => (inl e, w')
    end.

(** [try: m  except ...: h e] *)
Definition try_except {A} (m : M A) (h : Exn -> M A) : M A :=
  fun w =>
    match m w with
    | (inr a, w') => (inr a, w')
    | (inl e, w') => h e w'
    end.

Notation "x <- m ;; k" := (bind m (fun x => k))
  (at level 61, m at next level, right associativity).
Notation "' pat <- m ;; k" := (bind m (fun x => match x with pat => k end))
  (at level 61, pat pattern, m at next level, right associativity).

(** ** Store operations *)

(** [db["product"].find_one({"_id": oid})]: the first document with that
    id, or [None]. *)
Definition find_one (oid : ObjectId) : M (option Product) :=
  fun w => (inr (find (fun d => N.eqb (_id d) oid) (db_product w)),
            log (FindOne "product" oid) w).

(** [ObjectId(s)] as a computation. *)
Definition ObjectId_new (s : string) : M ObjectId :=
  match ObjectId_of_str s with
  | Some oid => ret oid
  | None => raise (Raised (InvalidId s))
  end.

Definition fresh_id (docs : list (ObjectId * Order)) : ObjectId :=
  N.succ (fold_right (fun d m => N.max (fst d) m) 0%N docs).

(** Modelled from the spec: [create_document] is defined in the
    repository's [database] module, which is not among the sources.  The
    spec gives its contract for the order collection: it appends a new
    document to the store, the store assigns the document a unique
    identifier at write time, every call creates a brand-new record, and
    the generated identifier is returned.  This is
    [create_document("order", data)]. *)
Definition create_document (data : Order) : M string :=
  fun w =>
    let oid := fresh_id (db_order w) in
    (inr (ObjectId_str oid),
     log (InsertOne "order" oid)
       {| db_product := db_product w;
          db_order := (db_order w ++ [(oid, data)])%list;
          trace := trace w |}).

(** ** Model construction (pydantic) *)

Definition check (ok : bool) (loc : string) : list string :=
  if ok then [] else [loc].

(** [OrderItemSchema] called with the keys of [ni]: [title] must be a string, [price >= 0],
    [quantity >= 1]; [product_id] is a string and [image] is optional. *)
Definition OrderItemSchema (ni : NormalizedItem) : M OrderItem :=
  let locs :=
    (check (match ni_title ni with Some _ => true | None => false end) "title"
     ++ check (Py.ge0 (ni_price ni)) "price"
     ++ check (Py.ge1 (ni_quantity ni)) "quantity")%list in
  match ni_title ni, locs with
  | Some t, [] =>
      ret {| product_id := ni_product_id ni; title := t; price := ni_price ni;
             quantity := ni_quantity ni; image := ni_image ni |}
  | _, _ => raise (Raised (ValidationError "OrderItem" locs))
  end.

(** [OrderSchema(items=.., customer=.., subtotal=.., shipping=.., total=..,
    status=..)]: [subtotal], [shipping] and [total] are each [>= 0]. *)
Definition OrderSchema (its : list OrderItem) (c : Customer)
    (sub ship tot : Q) (st : string) : M Order :=
  let locs :=
    (check (Py.ge0 sub) "subtotal" ++ check (Py.ge0 ship) "shipping"
     ++ check (Py.ge0 tot) "total")%list in
  match locs with
  | [] => ret {| items := its; customer := c; subtotal := sub;
                 shipping := ship; total := tot; status := st |}
  | _ => raise (Raised (ValidationError "Order" locs))
  end.

(** [[f(x) for x in xs]], left to right; the first exception ends it. *)
Fixpoint for_each {A B} (f : A -> M B) (xs : list A) : M (list B) :=
  match xs with
  | [] => ret []
  | x :: xs' => y <- f x ;; ys <- for_each f xs' ;; ret (y :: ys)
  end.

(** ** POST /api/orders *)

(** The body of a successful response. *)
Record Created := {
  r_order_id : string;
  r_total : Q;
  r_status : string
}.

(** [float(prod.get("price", 0.0))] *)
Definition price_of (prod : Product) : Q :=
  match p_price prod with Some p => p | None => 0 end.

(** The dictionary appended to [normalized_items] for item [it] and the
    product [prod] found for it. *)
Definition normalized (it : OrderItem) (prod : Product) : NormalizedItem :=
  {| ni_product_id := product_id it;
     ni_title := p_title prod;
     ni_price := price_of prod;
     ni_quantity := quantity it;
     ni_image := p_image prod |}.

(** The lookup of one item: any exception of [ObjectId(..)] or of the query
    is caught and gives [None]. *)
Definition lookup (pid : string) : M (option Product) :=
  try_except (oid <- ObjectId_new pid ;; find_one oid) (fun _ => ret None).

(** The [for it in order.items] loop, started with the [subtotal] and the
    [normalized_items] accumulated so far.  A found document is a non-empty
    dictionary (it has [_id]), so [not prod] holds for [None] only. *)
Fixpoint normalize (its : list OrderItem) (sub : Q) (acc : list NormalizedItem)
    : M (Q * list NormalizedItem) :=
  match its with
  | [] => ret (sub, acc)
  | it :: rest =>
      prod <- lookup (product_id it) ;;
      match prod with
      | None =>
          raise (HTTPException 400 (Text ("Invalid product: " ++ product_id it)))
      | Some prod =>
          normalize rest (sub + price_of prod * inject_Z (quantity it))
                    (acc ++ [normalized it prod])%list
      end
  end.

(** The body of the outer [try]. *)
Definition create_order_body (order : OrderCreate) : M Created :=
  match oc_items order with
  | [] => raise (HTTPException 400 (Text "Cart is empty"))
  | _ =>
      '(sub, normalized_items) <- normalize (oc_items order) 0 [] ;;
      let ship := Py.or_zero (oc_shipping order) in
      let tot := Py.round2 (sub + ship) in
      its <- for_each OrderItemSchema normalized_items ;;
      order_doc <- OrderSchema its (oc_customer order) (Py.round2 sub) ship tot
                               "pending" ;;
      order_id <- create_document order_doc ;;
      ret {| r_order_id := order_id; r_total := tot; r_status := "pending" |}
  end.

(** [except HTTPException: raise] / [except Exception as e: raise
    HTTPException(status_code=500, detail=str(e))] *)
Definition create_order (order : OrderCreate) : M Created :=
  try_except (create_order_body order)
    (fun e =>
       match e with
       | HTTPException c d => raise (HTTPException c d)
       | Raised e' => raise (HTTPException 500 (StrOf e'))
       end).

(** ** Request validation

    FastAPI parses the JSON body into an [OrderCreate] before the handler
    runs and answers 422 when that fails.  A decoded body is modelled with
    every key optional ([None]: the key is absent); a key that is present
    holds a value of the JSON type the model declares for it. *)

Record OrderItemJson := {
  j_product_id : option string;
  j_title : option string;
  j_price : option Q;
  j_quantity : option Z;
  j_image : option string
}.

Record CustomerJson := {
  j_name : option string;
  j_email : option string;
  j_phone : option string;
  j_address_line1 : option string;
  j_address_line2 : option string;
  j_city : option string;
  j_state : option string;
  j_postal_code : option string;
  j_country : option string
}.

Record OrderCreateJson := {
  j_items : option (list OrderItemJson);
  j_customer : option CustomerJson;
  j_shipping : option Q
}.

(** Where in the body a validation error sits. *)
Inductive LocPart :=
| Key (k : string)
| Index (i : nat).

Definition Loc := list LocPart.

(** The result of validating one value: the errors found, or the value. *)
Definition Validated (A : Type) : Type := (list Loc + A)%type.

Definition errors {A} (v : Validated A) : list Loc :=
  match v with inl locs => locs | inr _ => [] end.

Definition under {A} (p : LocPart) (v : Validated A) : Validated A :=
  match v with
  | inl locs => inl (map (cons p) locs)
  | inr a => inr a
  end.

(** A required field: [Field(...)]. *)
Definition required {A} (k : string) (x : option A) : Validated A :=
  match x with
  | Some a => inr a
  | None => inl [[Key k]]
  end.

(** A required field with a constraint. *)
Definition required_if {A} (k : string) (ok : A -> bool) (x : option A)
    : Validated A :=
  match x with
  | Some a => if ok a then inr a else inl [[Key k]]
  | None => inl [[Key k]]
  end.

Definition validate_OrderItem (j : OrderItemJson) : Validated OrderItem :=
  let v_product_id := required "product_id" (j_product_id j) in
  let v_title := required "title" (j_title j) in
  let v_price := required_if "price" Py.ge0 (j_price j) in
  let v_quantity := required_if "quantity" Py.ge1 (j_quantity j) in
  match v_product_id, v_title, v_price, v_quantity with
  | inr pid, inr t, inr p, inr q =>
      inr {| product_id := pid; title := t; price := p; quantity := q;
             image := j_image j |}
  | _, _, _, _ =>
      inl (errors v_product_id ++ errors v_title ++ errors v_price
           ++ errors v_quantity)%list
  end.

Fixpoint validate_items (i : nat) (js : list OrderItemJson)
    : Validated (list OrderItem) :=
  match js with
  | [] => inr []
  | j :: js' =>
      let v := under (Index i) (validate_OrderItem j) in
      let vs := validate_items (S i) js' in
      match v, vs with
      | inr it, inr its => inr (it :: its)
      | _, _ => inl (errors v ++ errors vs)%list
      end
  end.

Section Request.

(** [EmailStr]: the address as pydantic's email validation returns it, or
    [None] when it rejects the string. *)
Variable validate_email : string -> option string.

Definition email_field (x : option string) : Validated string :=
  match x with
  | Some s =>
      match validate_email s with
      | Some s' => inr s'
      | None => inl [[Key "email"]]
      end
  | None => inl [[Key "email"]]
  end.

Definition validate_Customer (j : CustomerJson) : Validated Customer :=
  let v_name := required "name" (j_name j) in
  let v_email := email_field (j_email j) in
  let v_line1 := required "address_line1" (j_address_line1 j) in
  let v_city := required "city" (j_city j) in
  let v_state := required "state" (j_state j) in
  let v_postal := required "postal_code" (j_postal_code j) in
  let v_country := required "country" (j_country j) in
  match v_name, v_email, v_line1, v_city, v_state, v_postal, v_country with
  | inr n, inr e, inr l1, inr ci, inr st, inr pc, inr co =>
      inr {| name := n; email := e; phone := j_phone j;
             address_line1 := l1; address_line2 := j_address_line2 j;
             city := ci; state := st; postal_code := pc; country := co |}
  | _, _, _, _, _, _, _ =>
      inl (errors v_name ++ errors v_email ++ errors v_line1
           ++ errors v_city ++ errors v_state ++ errors v_postal
           ++ errors v_country)%list
  end.

(** [OrderCreate]: [items] and [customer] are required, [shipping]
    defaults to [0.0]. *)
Definition validate_OrderCreate (j : OrderCreateJson)
    : Validated OrderCreate :=
  let v_items :=
    match j_items j with
    | Some js => under (Key "items") (validate_items 0 js)
    | None => inl [[Key "items"]]
    end in
  let v_customer :=
    match j_customer j with
    | Some c => under (Key "customer") (validate_Customer c)
    | None => inl [[Key "customer"]]
    end in
  match v_items, v_customer with
  | inr its, inr c =>
      inr {| oc_items := its; oc_customer := c;
             oc_shipping := match j_shipping j with
                            | Some s => s
                            | None => 0
                            end |}
  | _, _ => inl (errors v_items ++ errors v_customer)%list
  end.

Inductive HttpResponse :=
| Http200 (body : Created)
| Http422 (locs : list Loc)
| HttpError (status_code : Z) (detail : Detail).

(** What the client receives for the outcome of the handler.  An
    exception other than [HTTPException] would be answered by the
    framework with a plain 500. *)
Definition respond (r : (Exn + Created) * World) : HttpResponse * World :=
  match r with
  | (inr body, w) => (Http200 body, w)
  | (inl (HTTPException c d), w) => (HttpError c d, w)
  | (inl (Raised _), w) => (HttpError 500 (Text "Internal Server Error"), w)
  end.

Definition post_api_orders (j : OrderCreateJson) (w : World)
    : HttpResponse * World :=
  match validate_OrderCreate j with
  | inl locs => (Http422 locs, w)
  | inr order => respond (create_order order w)
  end.

End Request.

(** ** Vocabulary of the statements *)

(** What the lookup of [pid] finds in the catalog: [None] for an
    identifier that is not well formed and for one no document carries. *)
Definition resolve (products : list Product) (pid : string) : option Product :=
  match ObjectId_of_str pid with
  | Some oid => find (fun d => N.eqb (_id d) oid) products
  | None => None
  end.

Definition resolves (products : list Product) (it : OrderItem) : Prop :=
  resolve products (product_id it) <> None.

(** [ni] is the dictionary built for cart item [it] from the catalog. *)
Definition normalized_from (products : list Product) (it : OrderItem)
    (ni : NormalizedItem) : Prop :=
  exists prod,
    resolve products (product_id it) = Some prod /\ ni = normalized it prod.

(** [snap] is the persisted line for cart item [it]: identifier and
    quantity from the cart, title, unit price and image from the catalog
    document the identifier resolves to. *)
Definition snapshot_of (products : list Product) (it snap : OrderItem) : Prop :=
  exists prod,
    resolve products (product_id it) = Some prod
    /\ product_id snap = product_id it
    /\ Some (title snap) = p_title prod
    /\ price snap = price_of prod
    /\ quantity snap = quantity it
    /\ image snap = p_image prod.

(** The running sum of the loop: [subtotal += price * quantity]. *)
Definition add_line (sub : Q) (ni : NormalizedItem) : Q :=
  sub + ni_price ni * inject_Z (ni_quantity ni).

(** The unrounded subtotal of a list of lines: unit price times quantity,
    summed from [0.0] in list order. *)
Definition subtotal_raw (lines : list OrderItem) : Q :=
  fold_left (fun sub it => sub + price it * inject_Z (quantity it)) lines 0.


(** The request [order] with another shipping value. *)
Definition with_shipping (order : OrderCreate) (s : Q) : OrderCreate :=
  {| oc_items := oc_items order; oc_customer := oc_customer order;
     oc_shipping := s |}.


(** A body item that supplies every required field within its bounds. *)
Definition complete_item (j : OrderItemJson) : Prop :=
  exists pid t p q,
    j_product_id j = Some pid /\ j_title j = Some t
    /\ j_price j = Some p /\ 0 <= p
    /\ j_quantity j = Some q /\ (1 <= q)%Z.

(** A body item that supplies a [product_id] and a [quantity] and nothing
    else. *)
Definition minimal_item (j : OrderItemJson) : Prop :=
  (exists pid, j_product_id j = Some pid)
  /\ (exists q, j_quantity j = Some q /\ (1 <= q)%Z)
  /\ j_title j = None /\ j_price j = None /\ j_image j = None.

(** [it] is the [OrderItem] built from the dictionary [ni]. *)
Definition validated_as (ni : NormalizedItem) (it : OrderItem) : Prop :=
  ni_product_id ni = product_id it
  /\ ni_title ni = Some (title it)
  /\ ni_price ni = price it
  /\ ni_quantity ni = quantity it
  /\ ni_image ni = image it.

(** The document [create_order] builds from the validated lines [its]. *)
Definition order_doc_of (order : OrderCreate) (its : list OrderItem) : Order :=
  {| items := its;
     customer := oc_customer order;
     subtotal := Py.round2 (subtotal_raw its);
     shipping := Py.or_zero (oc_shipping order);
     total := Py.round2 (subtotal_raw its + Py.or_zero (oc_shipping order));
     status := "pending" |}.

(** The [(product_id, quantity)] pairs of a cart: what a request says
    about its lines once title, price and image are set aside. *)
Definition cart_lines (its : list OrderItem) : list (string * Z) :=
  map (fun it => (product_id it, quantity it)) its.

(** ** Sample data *)

Module Sample.

Definition oid (s : string) : ObjectId :=
  match ObjectId_of_str s with Some n => n | None => 0%N end.

Definition neon_drive : Product :=
  {| _id := oid "65f1c0de0000000000000001";
     p_title := Some "Neon Drive LED Poster";
     p_price := Some 89;
     p_image := Some "https://images.example/neon.jpg" |}.

Definition redline_kit : Product :=
  {| _id := oid "65f1c0de0000000000000003";
     p_title := Some "Redline Interior Glow Kit";
     p_price := Some 59;
     p_image := None |}.

(** A document priced at 1/256 of a dollar. *)
Definition swatch : Product :=
  {| _id := oid "65f1c0de0000000000000004";
     p_title := Some "Vinyl swatch";
     p_price := Some (1 # 256);
     p_image := None |}.

(** A document without a [price] key. *)
Definition unpriced : Product :=
  {| _id := oid "65f1c0de0000000000000005";
     p_title := Some "Sticker";
     p_price := None;
     p_image := None |}.

Definition world : World :=
  {| db_product := [neon_drive; redline_kit; swatch; unpriced];
     db_order := [];
     trace := [] |}.

Definition buyer : Customer :=
  {| name := "Ada"; email := "ada@example.org"; phone := None;
     address_line1 := "1 Main St"; address_line2 := None;
     city := "Springfield"; state := "IL"; postal_code := "62701";
     country := "US" |}.

Definition item (pid t : string) (p : Q) (q : Z) : OrderItem :=
  {| product_id := pid; title := t; price := p; quantity := q;
     image := None |}.

Definition request (its : list OrderItem) (s : Q) : OrderCreate :=
  {| oc_items := its; oc_customer := buyer; oc_shipping := s |}.

Definition two_neon : OrderItem :=
  item "65f1c0de0000000000000001" "Neon Drive LED Poster" 89 2.

(** The same line with a title and a price of the client's choosing. *)
Definition two_neon_forged : OrderItem :=
  item "65f1c0de0000000000000001" "Free poster" 0 2.

Definition one_kit : OrderItem :=
  item "65f1c0de0000000000000003" "Redline Interior Glow Kit" 59 1.


Definition one_sticker : OrderItem :=
  item "65f1c0de0000000000000005" "Sticker" 0 1.

Definition bad_id : OrderItem := item "bad-id" "Anything" 1 1.

Definition accept_email (s : string) : option string := Some s.

Definition buyer_json : CustomerJson :=
  {| j_name := Some "Ada"; j_email := Some "ada@example.org";
     j_phone := None; j_address_line1 := Some "1 Main St";
     j_address_line2 := None; j_city := Some "Springfield";
     j_state := Some "IL"; j_postal_code := Some "62701";
     j_country := Some "US" |}.

(** [{product_id, quantity}] and nothing else. *)
Definition minimal_json : OrderItemJson :=
  {| j_product_id := Some "65f1c0de0000000000000001"; j_title := None;
     j_price := None; j_quantity := Some 2%Z; j_image := None |}.

Definition complete_json : OrderItemJson :=
  {| j_product_id := Some "65f1c0de0000000000000001";
     j_title := Some "Neon Drive LED Poster"; j_price := Some 89;
     j_quantity := Some 2%Z; j_image := None |}.

Definition body (js : list OrderItemJson) : OrderCreateJson :=
  {| j_items := Some js; j_customer := Some buyer_json;
     j_shipping := None |}.

End Sample.

(** ** Vocabulary of the further properties *)

(** The store query that the lookup of [pid] causes: none when [pid] is
    not a well-formed identifier. *)
Definition lookup_events (pid : string) : list Event :=
  match ObjectId_of_str pid with
  | Some oid => [FindOne "product" oid]
  | None => []
  end.

(** The store queries of the loop over [its], when it runs to the end. *)
Definition lookups (its : list OrderItem) : list Event :=
  flat_map (fun it => lookup_events (product_id it)) its.

(** The bounds the models put on a line and on an order. *)
Definition line_in_bounds (it : OrderItem) : Prop :=
  0 <= price it /\ (1 <= quantity it)%Z.

Definition order_in_bounds (doc : Order) : Prop :=
  Forall line_in_bounds (items doc)
  /\ 0 <= subtotal doc /\ 0 <= shipping doc /\ 0 <= total doc.


(** Further sample data: a catalog with a document that has no title. *)
Module Edge.

Definition untitled : Product :=
  {| _id := Sample.oid "65f1c0de0000000000000006";
     p_title := None;
     p_price := Some 12;
     p_image := None |}.

Definition world : World :=
  {| db_product := [Sample.neon_drive; untitled];
     db_order := [];
     trace := [] |}.


End Edge.


(** The status code of a response. *)
Definition status_of (r : HttpResponse) : Z :=
  match r with
  | Http200 _ => 200
  | Http422 _ => 422
  | HttpError c _ => c
  end.



(** ** Documents as dictionaries

    The read endpoints of [main.py] handle catalog documents as Python
    dictionaries.  A [Dict] lists the entries of one in insertion order;
    the keys of a dictionary are distinct. *)

#[warnings="-register-all"]
Inductive Value :=
| VNone
| VBool (b : bool)
| VInt (n : Z)
| VFloat (x : Q)
| VStr (s : string)
| VObjectId (oid : ObjectId)
| VList (vs : list Value)
| VDict (kvs : list (string * Value)).

Definition Dict := list (string * Value).

(** [isinstance(v, ObjectId)] *)
Definition is_ObjectId (v : Value) : bool :=
  match v with VObjectId _ => true | _ => false end.

(** [d.get(k)] *)
Fixpoint dict_get (k : string) (d : Dict) : option Value :=
  match d with
  | [] => None
  | (k', v) :: rest => if String.eqb k' k then Some v else dict_get k rest
  end.

(** [d[k] = v]: an existing key keeps its place, a new one goes last. *)
Fixpoint dict_set (k : string) (v : Value) (d : Dict) : Dict :=
  match d with
  | [] => [(k, v)]
  | (k', v') :: rest =>
      if String.eqb k' k then (k', v) :: rest
      else (k', v') :: dict_set k v rest
  end.

(** What [d.pop(k)] leaves in [d]. *)
Fixpoint dict_pop (k : string) (d : Dict) : Dict :=
  match d with
  | [] => []
  | (k', v') :: rest =>
      if String.eqb k' k then rest else (k', v') :: dict_pop k rest
  end.

Definition keys (d : Dict) : list string := map fst d.

Section Serialize.

(** [str(v)] for the values whose text the model does not spell out
    (numbers, lists, dictionaries): Python's own rendering. *)
Variable str_other : Value -> string.

(** [str(v)] *)
Definition py_str (v : Value) : string :=
  match v with
  | VObjectId oid => ObjectId_str oid
  | VStr s => s
  | VNone => "None"
  | VBool true => "True"
  | VBool false => "False"
  | _ => str_other v
  end.

(** One round of [for k, v in list(d.items())]. *)
Definition stringify_entry (d : Dict) (kv : string * Value) : Dict :=
  if is_ObjectId (snd kv) then dict_set (fst kv) (VStr (py_str (snd kv))) d
  else d.

(** [serialize_doc] *)
Definition serialize_doc (doc : Dict) : Dict :=
  match doc with
  | [] => doc
  | _ =>
      let d := doc in
      let d :=
        match dict_get "_id" d with
        | Some v => dict_set "id" (VStr (py_str v)) (dict_pop "_id" d)
        | None => d
        end in
      fold_left stringify_entry d d
  end.

End Serialize.

(** What [serialize_doc] makes of one value. *)
Definition stringified (str_other : Value -> string) (v : Value) : Value :=
  if is_ObjectId v then VStr (py_str str_other v) else v.


(** The dictionary after the [_id] step of [serialize_doc]. *)
Definition id_renamed (str_other : Value -> string) (d : Dict) : Dict :=
  match dict_get "_id" d with
  | Some v => dict_set "id" (VStr (py_str str_other v)) (dict_pop "_id" d)
  | None => d
  end.


(** Sample documents. *)
Module Docs.

(** A stand-in for the text of numbers, lists and dictionaries. *)
Definition str_other (v : Value) : string := "<value>".

Definition neon : Dict :=
  [("_id", VObjectId (Sample.oid "65f1c0de0000000000000001"));
   ("title", VStr "Neon Drive LED Poster");
   ("slug", VStr "neon-drive-led-poster");
   ("description", VStr "Futuristic neon car silhouette");
   ("price", VFloat 89);
   ("category", VStr "LED Poster");
   ("image", VStr "https://images.example/neon.jpg");
   ("gallery", VList [VStr "https://images.example/neon.jpg"]);
   ("in_stock", VBool true);
   ("featured", VBool true);
   ("specs", VDict [("size", VStr "24x36 in"); ("power", VStr "USB-C")])].

(** A document with an [id] of its own, a reference to another document,
    and a list of references. *)
Definition linked : Dict :=
  [("id", VStr "legacy-7");
   ("_id", VObjectId (Sample.oid "65f1c0de0000000000000007"));
   ("vendor", VObjectId (Sample.oid "65f1c0de00000000000000aa"));
   ("related", VList [VObjectId (Sample.oid "65f1c0de0000000000000001")])].

End Docs.


(** ** The read endpoints *)

(** The documents of the ["product"] collection, oldest first. *)
Definition Catalog := list Dict.

(** [main.py]: the response model of the catalog endpoints. *)
Record ProductResponse := {
  pr_id : string;
  pr_title : string;
  pr_slug : string;
  pr_description : option string;
  pr_price : Q;
  pr_category : string;
  pr_image : option string;
  pr_gallery : option (list string);
  pr_in_stock : bool;
  pr_featured : bool;
  pr_specs : option Dict
}.

(** What the libraries make of a value: Python's text of a number, list or
    dictionary, and pydantic's conversion of a value to the declared type
    of a field ([None] when it rejects the value).  The models below fix
    which fields exist, which are required and what their types are; how a
    value of another type is converted is pydantic's business. *)
Record Conversions := {
  str_of : Value -> string;
  as_str : Value -> option string;
  as_float : Value -> option Q;
  as_bool : Value -> option bool;
  as_str_list : Value -> option (list string);
  as_dict : Value -> option Dict
}.

(** A field declared without a default. *)
Definition field_required {A} (k : string) (conv : Value -> option A)
    (d : Dict) : list string + A :=
  match dict_get k d with
  | Some v => match conv v with Some a => inr a | None => inl [k] end
  | None => inl [k]
  end.

(** A field declared [Optional[..] = None]. *)
Definition field_optional {A} (k : string) (conv : Value -> option A)
    (d : Dict) : list string + option A :=
  match dict_get k d with
  | None | Some VNone => inr None
  | Some v => match conv v with Some a => inr (Some a) | None => inl [k] end
  end.

(** Validation goes through all the fields and reports every failure. *)
Definition ap {A B} (f : list string + (A -> B)) (x : list string + A)
    : list string + B :=
  match f, x with
  | inr g, inr a => inr (g a)
  | inl e, inr _ => inl e
  | inr _, inl e => inl e
  | inl e1, inl e2 => inl (e1 ++ e2)%list
  end.

(** [ProductResponse] called with the keys of [d]; keys that are not
    fields are ignored. *)
Definition ProductResponse_new (C : Conversions) (d : Dict)
    : list string + ProductResponse :=
  ap (ap (ap (ap (ap (ap (ap (ap (ap (ap (ap
    (inr Build_ProductResponse)
    (field_required "id" (as_str C) d))
    (field_required "title" (as_str C) d))
    (field_required "slug" (as_str C) d))
    (field_optional "description" (as_str C) d))
    (field_required "price" (as_float C) d))
    (field_required "category" (as_str C) d))
    (field_optional "image" (as_str C) d))
    (field_optional "gallery" (as_str_list C) d))
    (field_required "in_stock" (as_bool C) d))
    (field_required "featured" (as_bool C) d))
    (field_optional "specs" (as_dict C) d).

(** [ProductResponse] called with the keys of [serialize_doc(doc)]. *)
Definition product_response (C : Conversions) (doc : Dict)
    : PyError + ProductResponse :=
  match ProductResponse_new C (serialize_doc (str_of C) doc) with
  | inl locs => inl (ValidationError "ProductResponse" locs)
  | inr r => inr r
  end.

(** Whether a string field of a document equals [s], the way a store query
    [{field: s}] compares: a list matches when one of its elements does. *)
Definition field_is_str (k s : string) (d : Dict) : bool :=
  match dict_get k d with
  | Some (VStr s') => String.eqb s' s
  | Some (VList vs) =>
      existsb (fun v => match v with
                        | VStr s' => String.eqb s' s
                        | _ => false
                        end) vs
  | _ => false
  end.


(** [get_product]: the body of the [try]. *)
Definition get_product_body (C : Conversions) (cat : Catalog) (slug : string)
    : Exn + ProductResponse :=
  match find (field_is_str "slug" slug) cat with
  | None | Some [] => inl (HTTPException 404 (Text "Product not found"))
  | Some doc =>
      match product_response C doc with
      | inl e => inl (Raised e)
      | inr r => inr r
      end
  end.

(** [except HTTPException: raise] / [except Exception as e: raise
    HTTPException(status_code=500, detail=str(e))] *)
Definition reraise {A} (r : Exn + A) : Exn + A :=
  match r with
  | inl (HTTPException c d) => inl (HTTPException c d)
  | inl (Raised e) => inl (HTTPException 500 (StrOf e))
  | inr a => inr a
  end.

(** GET /api/products/{slug} *)
Definition get_product (C : Conversions) (cat : Catalog) (slug : string)
    : Exn + ProductResponse :=
  reraise (get_product_body C cat slug).

(** Modelled from the spec: [get_documents] is defined in the repository's
    [database] module, which is not among the sources.  The spec names what
    the catalog endpoints need of it: all the products, and the featured
    products up to a limit.  Here [matches] is the filter and [limit] the
    optional bound on the number of documents returned. *)
Definition get_documents (cat : Catalog) (matches : Dict -> bool)
    (limit : option nat) : list Dict :=
  let found := filter matches cat in
  match limit with
  | Some n => firstn n found
  | None => found
  end.

(** The responses built from [serialize_doc(d)] for [d] in [docs]: left to right,
    the first exception ends it. *)
Fixpoint product_responses (C : Conversions) (docs : list Dict)
    : PyError + list ProductResponse :=
  match docs with
  | [] => inr []
  | d :: rest =>
      match product_response C d with
      | inl e => inl e
      | inr r =>
          match product_responses C rest with
          | inl e => inl e
          | inr rs => inr (r :: rs)
          end
      end
  end.

(** [except Exception as e: raise HTTPException(status_code=500,
    detail=str(e))] *)
Definition or_500 {A} (r : PyError + A) : Exn + A :=
  match r with
  | inl e => inl (HTTPException 500 (StrOf e))
  | inr a => inr a
  end.

(** GET /api/products *)
Definition list_products (C : Conversions) (cat : Catalog)
    : Exn + list ProductResponse :=
  or_500 (product_responses C (get_documents cat (fun _ => true) None)).



(** ** Seeding *)

(** [schemas.py]: [Product]. *)
Record ProductSchema := {
  ps_title : string;
  ps_slug : string;
  ps_description : option string;
  ps_price : Q;
  ps_category : string;
  ps_image : option string;
  ps_gallery : option (list string);
  ps_in_stock : bool;
  ps_featured : bool;
  ps_specs : option Dict
}.

(** [ProductSchema(title=.., ..)]: the one constraint is [price >= 0]. *)
Definition ProductSchema_new (p : ProductSchema) : PyError + ProductSchema :=
  if Py.ge0 (ps_price p) then inr p
  else inl (ValidationError "Product" ["price"]).

(** The three sample products of [seed_products_if_empty], as written. *)
Definition sample_literals : list ProductSchema :=
  [ {| ps_title := "Neon Drive LED Poster";
       ps_slug := "neon-drive-led-poster";
       ps_description :=
         Some "Futuristic neon car silhouette with dynamic glow, perfect for garage or game room.";
       ps_price := 89;
       ps_category := "LED Poster";
       ps_image :=
         Some "https://images.unsplash.com/photo-1542362567-b07e54358753?q=80&w=1200&auto=format&fit=crop";
       ps_gallery :=
         Some ["https://images.unsplash.com/photo-1542362567-b07e54358753?q=80&w=1200&auto=format&fit=crop";
               "https://images.unsplash.com/photo-1483721310020-03333e577078?q=80&w=1200&auto=format&fit=crop"];
       ps_in_stock := true;
       ps_featured := true;
       ps_specs := Some [("size", VStr "24x36 in"); ("power", VStr "USB-C");
                         ("brightness", VStr "Adjustable")] |};
    {| ps_title := "Carbon Wave LED Poster";
       ps_slug := "carbon-wave-led-poster";
       ps_description :=
         Some "Matte carbon fibers meet flowing LED accents for a bold, stealthy vibe.";
       ps_price := 99;
       ps_category := "LED Poster";
       ps_image :=
         Some "https://images.unsplash.com/photo-1520975922203-b272b1e4e766?q=80&w=1200&auto=format&fit=crop";
       ps_gallery := None;
       ps_in_stock := true;
       ps_featured := true;
       ps_specs := Some [("size", VStr "18x24 in"); ("power", VStr "USB-A");
                         ("mount", VStr "Magnetic")] |};
    {| ps_title := "Redline Interior Glow Kit";
       ps_slug := "redline-interior-glow-kit";
       ps_description :=
         Some "Premium ambient lighting kit with deep red tones inspired by performance interiors.";
       ps_price := 59;
       ps_category := "Car Decor";
       ps_image :=
         Some "https://images.unsplash.com/photo-1511919884226-fd3cad34687c?q=80&w=1200&auto=format&fit=crop";
       ps_gallery := None;
       ps_in_stock := true;
       ps_featured := false;
       ps_specs := Some [("length", VStr "4x 60cm"); ("modes", VInt 12);
                         ("remote", VBool true)] |} ].

(** [samples = [ProductSchema(..), ..]]: the list is built before anything
    is inserted, so one failing construction leaves no sample at all. *)
Fixpoint build_samples (ps : list ProductSchema)
    : PyError + list ProductSchema :=
  match ps with
  | [] => inr []
  | p :: rest =>
      match ProductSchema_new p with
      | inl e => inl e
      | inr q =>
          match build_samples rest with
          | inl e => inl e
          | inr qs => inr (q :: qs)
          end
      end
  end.

Definition opt_value {A} (f : A -> Value) (x : option A) : Value :=
  match x with Some a => f a | None => VNone end.

(** The fields of a product as a dictionary. *)
Definition model_dump (p : ProductSchema) : Dict :=
  [("title", VStr (ps_title p));
   ("slug", VStr (ps_slug p));
   ("description", opt_value VStr (ps_description p));
   ("price", VFloat (ps_price p));
   ("category", VStr (ps_category p));
   ("image", opt_value VStr (ps_image p));
   ("gallery", opt_value (fun g => VList (map VStr g)) (ps_gallery p));
   ("in_stock", VBool (ps_in_stock p));
   ("featured", VBool (ps_featured p));
   ("specs", opt_value VDict (ps_specs p))].

(** The document stored for product [p] under identifier [oid]. *)
Definition stored (oid : ObjectId) (p : ProductSchema) : Dict :=
  ("_id", VObjectId oid) :: model_dump p.

Definition doc_oid (d : Dict) : ObjectId :=
  match dict_get "_id" d with Some (VObjectId oid) => oid | _ => 0%N end.

Definition fresh_product_id (cat : Catalog) : ObjectId :=
  N.succ (fold_right (fun d m => N.max (doc_oid d) m) 0%N cat).

(** Modelled from the spec: [create_document] is defined in the
    repository's [database] module, which is not among the sources.  The
    spec gives its contract: it appends a new document to the store, the
    store assigns the document a unique identifier at write time, and every
    call creates a brand-new record.  This is
    [create_document("product", p)]; the document holds the fields of the
    model and the identifier. *)
Definition create_product_document (p : ProductSchema) (cat : Catalog)
    : Catalog :=
  (cat ++ [stored (fresh_product_id cat) p])%list.

(** [seed_products_if_empty], with the store handle initialised.  An
    exception anywhere in it is swallowed by [except Exception: pass]. *)
Definition seed_products_if_empty (cat : Catalog) : Catalog :=
  if (List.length cat =? 0)%nat then
    match build_samples sample_literals with
    | inl _ => cat
    | inr samples =>
        fold_left (fun c p => create_product_document p c) samples cat
    end
  else cat.

(** ** Vocabulary of the read side *)

(** Conversions that accept a value of the declared type as it is. *)
Definition accepts_declared (C : Conversions) : Prop :=
  (forall s, as_str C (VStr s) = Some s)
  /\ (forall x, as_float C (VFloat x) = Some x)
  /\ (forall b, as_bool C (VBool b) = Some b)
  /\ (forall ss, as_str_list C (VList (map VStr ss)) = Some ss)
  /\ (forall kvs, as_dict C (VDict kvs) = Some kvs).

(** The response that shows product [p] stored under [oid]. *)
Definition response_of (oid : ObjectId) (p : ProductSchema) : ProductResponse :=
  {| pr_id := ObjectId_str oid;
     pr_title := ps_title p;
     pr_slug := ps_slug p;
     pr_description := ps_description p;
     pr_price := ps_price p;
     pr_category := ps_category p;
     pr_image := ps_image p;
     pr_gallery := ps_gallery p;
     pr_in_stock := ps_in_stock p;
     pr_featured := ps_featured p;
     pr_specs := ps_specs p |}.

(** The fields [ProductResponse] requires of a catalog document. *)
Definition required_of_document : list string :=
  ["title"; "slug"; "price"; "category"; "in_stock"; "featured"].

(** Conversions that accept the declared type and nothing else. *)
Definition strict : Conversions :=
  {| str_of := Docs.str_other;
     as_str := fun v => match v with VStr s => Some s | _ => None end;
     as_float := fun v => match v with
                          | VFloat x => Some x
                          | VInt n => Some (inject_Z n)
                          | _ => None
                          end;
     as_bool := fun v => match v with VBool b => Some b | _ => None end;
     as_str_list :=
       fun v =>
         match v with
         | VList vs =>
             fold_right
               (fun x acc =>
                  match x, acc with
                  | VStr s, Some ss => Some (s :: ss)
                  | _, _ => None
                  end) (Some []) vs
         | _ => None
         end;
     as_dict := fun v => match v with VDict kvs => Some kvs | _ => None end |}.


(** A validation result that fails and reports field [k]. *)
Definition fails_at {A} (k : string) (r : list string + A) : Prop :=
  exists locs, r = inl locs /\ In k locs.

(** A catalog document that lacks a field [ProductResponse] requires. *)
Definition incomplete_document (d : Dict) : Prop :=
  exists k, In k required_of_document /\ dict_get k d = None.


(** Sample catalog entries for the read side. *)
Module Shelf.

(** A document that has a slug and a title and nothing else to show. *)
Definition draft : Dict :=
  [("_id", VObjectId (Sample.oid "65f1c0de0000000000000009"));
   ("title", VStr "Draft");
   ("slug", VStr "draft")].

Definition poster : ProductSchema :=
  {| ps_title := "Carbon Wave LED Poster";
     ps_slug := "carbon-wave-led-poster";
     ps_description := None;
     ps_price := 99;
     ps_category := "LED Poster";
     ps_image := Some "https://images.example/carbon.jpg";
     ps_gallery := Some ["https://images.example/carbon.jpg"];
     ps_in_stock := true;
     ps_featured := true;
     ps_specs := Some [("mount", VStr "Magnetic"); ("modes", VInt 12)] |}.

Definition poster_oid : ObjectId := Sample.oid "65f1c0de0000000000000002".

Definition catalog : Catalog := [stored poster_oid poster; draft].

End Shelf.

(** * Properties *)

(** ** Rounding *)

Module PyFacts.
Import Py.

Lemma round_half_even_comp (x y : Q) :
  x == y -> round_half_even x = round_half_even y.
Proof.
  intros H. unfold round_half_even.
  rewrite (Qfloor_comp x y H).
  assert (E : x - inject_Z (Qfloor y) == y - inject_Z (Qfloor y))
    by (rewrite H; reflexivity).
  rewrite (Qcompare_comp _ _ E (1 # 2) (1 # 2) (Qeq_refl _)).
  reflexivity.
Qed.


Lemma round2_comp (x y : Q) : x == y -> round2 x = round2 y.
Proof.
  intros H. unfold round2.
  rewrite (round_half_even_comp (x * 100) (y * 100)); [reflexivity|].
  rewrite H. reflexivity.
Qed.




Lemma or_zero_eq (x : Q) : or_zero x == x.
Proof.
  unfold or_zero. destruct (Qeq_bool x 0) eqn:E; [|reflexivity].
  apply Qeq_bool_eq in E. symmetry. exact E.
Qed.

Lemma ge0_true (x : Q) : ge0 x = true <-> 0 <= x.
Proof. unfold ge0. apply Qle_bool_iff. Qed.

Lemma ge0_false (x : Q) : ge0 x = false <-> x < 0.
Proof.
  unfold ge0. split; intros H.
  - apply Qnot_le_lt. intros L. apply Qle_bool_iff in L. congruence.
  - destruct (Qle_bool 0 x) eqn:E; [|reflexivity].
    apply Qle_bool_iff in E. exfalso. exact (Qlt_not_le _ _ H E).
Qed.

End PyFacts.

(** ** The lookup and the loop *)

Lemma lookup_run (pid : string) (w : World) :
  exists w',
    lookup pid w = (inr (resolve (db_product w) pid), w')
    /\ db_product w' = db_product w /\ db_order w' = db_order w.
Proof.
  unfold lookup, try_except, bind, ObjectId_new, resolve.
  destruct (ObjectId_of_str pid) as [oid|]; simpl.
  - eexists. repeat split.
  - exists w. repeat split.
Qed.


Ltac step_lookup it w :=
  let w1 := fresh "w1" in
  let E := fresh "E" in
  let P := fresh "P" in
  let O := fresh "O" in
  destruct (lookup_run (product_id it) w) as (w1 & E & P & O);
  simpl; unfold bind at 1; rewrite E.

Lemma normalize_worlds (its : list OrderItem) :
  forall sub acc w res w',
    normalize its sub acc w = (res, w') ->
    db_product w' = db_product w /\ db_order w' = db_order w.
Proof.
  induction its as [|it rest IH]; intros sub acc w res w' H.
  - inversion H. split; reflexivity.
  - revert H. step_lookup it w.
    destruct (resolve (db_product w) (product_id it)) as [prod|]; intros H.
    + apply IH in H. destruct H as [H1 H2]. split; congruence.
    + inversion H. subst. split; assumption.
Qed.

Lemma normalize_ok (its : list OrderItem) :
  forall sub acc w sub' nis w',
    normalize its sub acc w = (inr (sub', nis), w') ->
    exists new,
      nis = (acc ++ new)%list
      /\ Forall2 (normalized_from (db_product w)) its new
      /\ sub' = fold_left add_line new sub.
Proof.
  induction its as [|it rest IH]; intros sub acc w sub' nis w' H.
  - inversion H. subst. exists []. rewrite app_nil_r. repeat split. constructor.
  - revert H. step_lookup it w.
    destruct (resolve (db_product w) (product_id it)) as [prod|] eqn:R; intros H.
    + apply IH in H. destruct H as (new & Hn & Hf & Hs).
      exists (normalized it prod :: new). repeat split.
      * rewrite Hn, <- app_assoc. reflexivity.
      * constructor; [exists prod; split; auto | rewrite <- P; exact Hf].
      * exact Hs.
    + discriminate H.
Qed.

Lemma normalize_err (its : list OrderItem) :
  forall sub acc w e w',
    normalize its sub acc w = (inl e, w') ->
    exists pre it post,
      its = (pre ++ it :: post)%list
      /\ Forall (resolves (db_product w)) pre
      /\ resolve (db_product w) (product_id it) = None
      /\ e = HTTPException 400 (Text ("Invalid product: " ++ product_id it)).
Proof.
  induction its as [|it rest IH]; intros sub acc w e w' H.
  - discriminate H.
  - revert H. step_lookup it w.
    destruct (resolve (db_product w) (product_id it)) as [prod|] eqn:R; intros H.
    + apply IH in H. destruct H as (pre & it' & post & Hi & Hp & Hr & He).
      exists (it :: pre), it', post. rewrite P in Hp, Hr. repeat split; auto.
      * rewrite Hi. reflexivity.
      * constructor; [unfold resolves; congruence | exact Hp].
    + inversion H. subst. exists [], it, rest. repeat split; auto.
  Qed.



(** ** Building the models *)

Lemma OrderItemSchema_inv (ni : NormalizedItem) (w : World) res w' :
  OrderItemSchema ni w = (res, w') ->
  w' = w
  /\ match res with
     | inr it => validated_as ni it
     | inl e => exists locs, e = Raised (ValidationError "OrderItem" locs)
     end.
Proof.
  unfold OrderItemSchema, validated_as.
  destruct (ni_title ni) as [t|]; simpl.
  - destruct (check (Py.ge0 (ni_price ni)) "price"
              ++ check (Py.ge1 (ni_quantity ni)) "quantity")%list;
      intros H; inversion H; subst; simpl; eauto 10.
  - intros H; inversion H; subst; eauto.
Qed.


Lemma for_each_inv (nis : list NormalizedItem) :
  forall w res w',
    for_each OrderItemSchema nis w = (res, w') ->
    w' = w
    /\ match res with
       | inr its => Forall2 validated_as nis its
       | inl e => exists locs, e = Raised (ValidationError "OrderItem" locs)
       end.
Proof.
  induction nis as [|ni rest IH]; intros w res w'; simpl.
  - intros H. inversion H. split; [reflexivity | constructor].
  - unfold bind at 1.
    destruct (OrderItemSchema ni w) as [[e|it] w1] eqn:E;
      apply OrderItemSchema_inv in E; destruct E as [-> E].
    + intros H. inversion H. subst. split; [reflexivity | exact E].
    + unfold bind at 1.
      destruct (for_each OrderItemSchema rest w) as [[e|its] w2] eqn:F;
        apply IH in F; destruct F as [-> F]; intros H; inversion H; subst;
        split; auto.
Qed.


Lemma OrderSchema_inv its c sub ship tot st (w : World) res w' :
  OrderSchema its c sub ship tot st w = (res, w') ->
  w' = w
  /\ match res with
     | inr doc =>
         doc = {| items := its; customer := c; subtotal := sub;
                  shipping := ship; total := tot; status := st |}
         /\ Py.ge0 sub = true /\ Py.ge0 ship = true /\ Py.ge0 tot = true
     | inl e => exists locs, e = Raised (ValidationError "Order" locs)
     end.
Proof.
  unfold OrderSchema.
  destruct (Py.ge0 sub), (Py.ge0 ship), (Py.ge0 tot); simpl;
    intros H; inversion H; subst; eauto 10.
Qed.


Lemma OrderSchema_negative_shipping its c sub ship tot st (w : World) :
  Py.ge0 ship = false ->
  exists locs,
    OrderSchema its c sub ship tot st w
    = (inl (Raised (ValidationError "Order" locs)), w)
    /\ In "shipping" locs.
Proof.
  intros B. unfold OrderSchema. rewrite B.
  destruct (Py.ge0 sub), (Py.ge0 tot); simpl; eexists; split;
    try reflexivity; simpl; auto.
Qed.

(** ** From the loop to the persisted lines *)

Lemma validated_snapshots products (its : list OrderItem) :
  forall nis snaps,
    Forall2 (normalized_from products) its nis ->
    Forall2 validated_as nis snaps ->
    Forall2 (snapshot_of products) its snaps.
Proof.
  induction its as [|it rest IH]; intros nis snaps N V.
  - inversion N; subst. inversion V; subst. constructor.
  - inversion N as [|? ni ? nis' [prod [R ->]] N']; subst.
    inversion V as [|? snap ? snaps' (A & B & C & D & E) V']; subst.
    constructor; [|eapply IH; eauto].
    exists prod. simpl in *. repeat split; auto.
Qed.

Lemma validated_subtotal (nis : list NormalizedItem) :
  forall snaps sub,
    Forall2 validated_as nis snaps ->
    fold_left add_line nis sub
    = fold_left (fun s it => s + price it * inject_Z (quantity it)) snaps sub.
Proof.
  induction nis as [|ni rest IH]; intros snaps sub V.
  - inversion V. reflexivity.
  - inversion V as [|? snap ? snaps' (A & B & C & D & E) V']; subst.
    simpl. unfold add_line at 2. rewrite C, D. apply IH. exact V'.
Qed.

(** ** The handler, step by step *)

Lemma create_order_body_eq (order : OrderCreate) (w : World) :
  oc_items order <> [] ->
  create_order_body order w
  = match normalize (oc_items order) 0 [] w with
    | (inl e, w1) => (inl e, w1)
    | (inr (sub, nis), w1) =>
        match for_each OrderItemSchema nis w1 with
        | (inl e, w2) => (inl e, w2)
        | (inr its, w2) =>
            let ship := Py.or_zero (oc_shipping order) in
            let tot := Py.round2 (sub + ship) in
            match OrderSchema its (oc_customer order) (Py.round2 sub) ship tot
                              "pending" w2 with
            | (inl e, w3) => (inl e, w3)
            | (inr doc, w3) =>
                match create_document doc w3 with
                | (inl e, w4) => (inl e, w4)
                | (inr order_id, w4) =>
                    (inr {| r_order_id := order_id; r_total := tot;
                            r_status := "pending" |}, w4)
                end
            end
        end
    end.
Proof.
  intros NE. unfold create_order_body.
  destruct (oc_items order) as [|it rest] eqn:I; [contradiction|].
  unfold bind at 1.
  destruct (normalize (it :: rest) 0 [] w) as [[e|[sub nis]] w1];
    [reflexivity|].
  unfold bind at 1.
  destruct (for_each OrderItemSchema nis w1) as [[e|its] w2]; [reflexivity|].
  unfold bind at 1. cbv zeta.
  destruct (OrderSchema _ _ _ _ _ _ w2) as [[e|doc] w3]; [reflexivity|].
  unfold bind at 1.
  destruct (create_document doc w3) as [[e|oid] w4]; reflexivity.
Qed.

(** What a successful request did. *)
Lemma create_order_success (order : OrderCreate) (w : World) r w' :
  create_order order w = (inr r, w') ->
  exists its,
    oc_items order <> []
    /\ Forall2 (snapshot_of (db_product w)) (oc_items order) its
    /\ db_order w'
       = (db_order w ++ [(fresh_id (db_order w), order_doc_of order its)])%list
    /\ db_product w' = db_product w
    /\ r = {| r_order_id := ObjectId_str (fresh_id (db_order w));
              r_total := total (order_doc_of order its);
              r_status := "pending" |}
    /\ Py.ge0 (subtotal (order_doc_of order its)) = true
    /\ Py.ge0 (shipping (order_doc_of order its)) = true
    /\ Py.ge0 (total (order_doc_of order its)) = true.
Proof.
  unfold create_order, try_except.
  destruct (create_order_body order w) as [[e|r0] w0] eqn:B.
  { destruct e; discriminate. }
  intros H. inversion H. subst r0 w0. clear H.
  assert (NE : oc_items order <> []).
  { intros I. unfold create_order_body in B. rewrite I in B. discriminate. }
  rewrite (create_order_body_eq order w NE) in B.
  destruct (normalize (oc_items order) 0 [] w) as [[e|[sub nis]] w1] eqn:N;
    [discriminate|].
  destruct (normalize_worlds _ _ _ _ _ _ N) as [P1 O1].
  apply normalize_ok in N. destruct N as (new & Hn & Hf & Hs).
  simpl in Hn. subst nis.
  destruct (for_each OrderItemSchema new w1) as [[e|its] w2] eqn:F;
    [discriminate|].
  apply for_each_inv in F. destruct F as [-> V].
  cbv zeta in B.
  destruct (OrderSchema _ _ _ _ _ _ w1) as [[e|doc] w3] eqn:S; [discriminate|].
  apply OrderSchema_inv in S. destruct S as [-> (D & G1 & G2 & G3)].
  assert (Hsub : sub = subtotal_raw its).
  { rewrite Hs. unfold subtotal_raw. apply validated_subtotal. exact V. }
  rewrite Hsub in *.
  unfold create_document in B. inversion B. subst r w'. clear B.
  exists its. simpl. rewrite O1, P1, D. unfold order_doc_of. simpl.
  repeat split; auto.
  eapply validated_snapshots; eauto.
Qed.

(** What a failed request did: nothing was written. *)
Lemma create_order_failure (order : OrderCreate) (w : World) e w' :
  create_order order w = (inl e, w') ->
  db_order w' = db_order w /\ exists c d, e = HTTPException c d.
Proof.
  unfold create_order, try_except.
  destruct (create_order_body order w) as [[e0|r0] w0] eqn:B;
    [|discriminate].
  intros H.
  assert (E : w' = w0 /\ exists c d, e = HTTPException c d).
  { destruct e0; inversion H; eauto. }
  destruct E as [-> E]. split; [|exact E]. clear H E.
  destruct (oc_items order) as [|it rest] eqn:I.
  { unfold create_order_body in B. rewrite I in B. inversion B. reflexivity. }
  assert (NE : oc_items order <> []) by (rewrite I; discriminate).
  rewrite (create_order_body_eq order w NE) in B.
  destruct (normalize (oc_items order) 0 [] w) as [[e1|[sub nis]] w1] eqn:N.
  { inversion B. subst. eapply normalize_worlds; eauto. }
  destruct (normalize_worlds _ _ _ _ _ _ N) as [P1 O1].
  destruct (for_each OrderItemSchema nis w1) as [[e1|its] w2] eqn:F;
    apply for_each_inv in F; destruct F as [-> F].
  { inversion B. subst. exact O1. }
  cbv zeta in B.
  destruct (OrderSchema _ _ _ _ _ _ w1) as [[e1|doc] w3] eqn:S;
    apply OrderSchema_inv in S; destruct S as [-> S].
  { inversion B. subst. exact O1. }
  unfold create_document in B. discriminate B.
Qed.

Lemma create_order_of_body (order : OrderCreate) (w : World) :
  create_order order w
  = match create_order_body order w with
    | (inr r, w') => (inr r, w')
    | (inl (HTTPException c d), w') => (inl (HTTPException c d), w')
    | (inl (Raised e), w') => (inl (HTTPException 500 (StrOf e)), w')
    end.
Proof.
  unfold create_order, try_except.
  destruct (create_order_body order w) as [[[c d|e]|r] w']; reflexivity.
Qed.



Lemma normalize_ext (its1 : list OrderItem) :
  forall its2 sub acc w,
    cart_lines its1 = cart_lines its2 ->
    normalize its1 sub acc w = normalize its2 sub acc w.
Proof.
  induction its1 as [|a rest1 IH]; intros [|b rest2] sub acc w H;
    try discriminate H; [reflexivity|].
  simpl in H. inversion H as [[Hp Hq Hr]].
  simpl. unfold bind. rewrite Hp.
  destruct (lookup (product_id b) w) as [[e|[prod|]] w1]; try reflexivity.
  unfold normalized. rewrite Hp, Hq. apply IH. exact Hr.
Qed.

(** * The order workflow *)

(** ** The empty cart *)

(** C6.  A request whose [items] list is empty fails with HTTP 400 and the
    message "Cart is empty".  The world the handler leaves is the one it
    found: no catalog lookup was made (the trace of store operations did
    not grow) and no order document was written. *)
Theorem empty_cart_rejected (order : OrderCreate) (w : World) :
  oc_items order = [] ->
  create_order order w
  = (inl (HTTPException 400 (Text "Cart is empty")), w).
Proof.
  intros I. rewrite create_order_of_body. unfold create_order_body.
  rewrite I. reflexivity.
Qed.

Lemma empty_cart_rejected_witness :
  create_order (Sample.request [] 5) Sample.world
  = (inl (HTTPException 400 (Text "Cart is empty")), Sample.world).
Proof. apply empty_cart_rejected. reflexivity. Defined.

(** ** Unresolvable identifiers *)





(** ** Normalization *)



(** ** Client-supplied titles, prices and images *)

Lemma create_order_body_ext (order1 order2 : OrderCreate) (w : World) :
  cart_lines (oc_items order1) = cart_lines (oc_items order2) ->
  oc_customer order1 = oc_customer order2 ->
  oc_shipping order1 = oc_shipping order2 ->
  create_order_body order1 w = create_order_body order2 w.
Proof.
  intros L C S.
  destruct (oc_items order1) as [|a rest1] eqn:I1;
    destruct (oc_items order2) as [|b rest2] eqn:I2; try discriminate L.
  - unfold create_order_body. rewrite I1, I2. reflexivity.
  - rewrite !create_order_body_eq by congruence.
    rewrite I1, I2, (normalize_ext _ _ 0 [] w L), C, S. reflexivity.
Qed.

(** C3.  Two requests with the same [(product_id, quantity)] lines, the
    same customer and the same shipping, run against the same store, have
    the same outcome whatever titles, prices and images their items carry:
    the same response (hence the same total) and the same store afterwards
    (hence the same persisted subtotal, total and lines).  When the outcome
    is a success, each persisted line has the title, unit price and image
    of the catalog document its identifier resolves to. *)
Theorem client_fields_ignored (order1 order2 : OrderCreate) (w : World) :
  cart_lines (oc_items order1) = cart_lines (oc_items order2) ->
  oc_customer order1 = oc_customer order2 ->
  oc_shipping order1 = oc_shipping order2 ->
  create_order order1 w = create_order order2 w
  /\ forall r w',
       create_order order1 w = (inr r, w') ->
       exists oid doc,
         db_order w' = (db_order w ++ [(oid, doc)])%list
         /\ Forall2 (snapshot_of (db_product w)) (oc_items order1) (items doc)
         /\ Forall2 (snapshot_of (db_product w)) (oc_items order2) (items doc).
Proof.
  intros L C S.
  assert (E : create_order order1 w = create_order order2 w).
  { rewrite !create_order_of_body.
    rewrite (create_order_body_ext order1 order2 w L C S). reflexivity. }
  split; [exact E|].
  intros r w' H.
  pose proof H as H2. rewrite E in H2.
  apply create_order_success in H. apply create_order_success in H2.
  destruct H as (its & _ & F1 & D1 & _).
  destruct H2 as (its2 & _ & F2 & D2 & _).
  exists (fresh_id (db_order w)), (order_doc_of order1 its).
  split; [exact D1|]. split; [exact F1|].
  rewrite D1 in D2. apply app_inv_head in D2.
  assert (Hi : items (order_doc_of order1 its) = items (order_doc_of order2 its2))
    by congruence.
  rewrite Hi. exact F2.
Qed.

Lemma client_fields_ignored_witness :
  create_order (Sample.request [Sample.two_neon; Sample.one_kit] 5)
               Sample.world
  = create_order (Sample.request [Sample.two_neon_forged; Sample.one_kit] 5)
                 Sample.world
  /\ forall r w',
       create_order (Sample.request [Sample.two_neon; Sample.one_kit] 5)
                    Sample.world = (inr r, w') ->
       exists oid doc,
         db_order w' = (db_order Sample.world ++ [(oid, doc)])%list
         /\ Forall2 (snapshot_of (db_product Sample.world))
                    [Sample.two_neon; Sample.one_kit] (items doc)
         /\ Forall2 (snapshot_of (db_product Sample.world))
                    [Sample.two_neon_forged; Sample.one_kit] (items doc).
Proof.
  apply (client_fields_ignored
           (Sample.request [Sample.two_neon; Sample.one_kit] 5)
           (Sample.request [Sample.two_neon_forged; Sample.one_kit] 5)
           Sample.world); reflexivity.
Defined.

(** ** What is written *)

(** C9.  Whatever the request, the handler either fails and leaves the
    order collection as it was, or succeeds and appends exactly one
    document to it.  That document has status "pending"; the response has
    status "pending", the document's total, and the identifier under which
    the document was stored. *)
Theorem created_order_is_pending (order : OrderCreate) (w : World) res w' :
  create_order order w = (res, w') ->
  (exists e, res = inl e /\ db_order w' = db_order w)
  \/ (exists r oid doc,
        res = inr r
        /\ db_order w' = (db_order w ++ [(oid, doc)])%list
        /\ status doc = "pending"
        /\ r_status r = "pending"
        /\ r_total r = total doc
        /\ r_order_id r = ObjectId_str oid).
Proof.
  intros H. destruct res as [e|r].
  - left. exists e. split; [reflexivity|].
    apply create_order_failure in H. apply H.
  - right. apply create_order_success in H.
    destruct H as (its & _ & _ & D & _ & -> & _).
    exists {| r_order_id := ObjectId_str (fresh_id (db_order w));
              r_total := total (order_doc_of order its);
              r_status := "pending" |},
      (fresh_id (db_order w)), (order_doc_of order its).
    repeat split. exact D.
Qed.

Lemma created_order_is_pending_witness :
  let out := create_order (Sample.request [Sample.two_neon] 0) Sample.world in
  (exists e, fst out = inl e /\ db_order (snd out) = db_order Sample.world)
  \/ (exists r oid doc,
        fst out = inr r
        /\ db_order (snd out) = (db_order Sample.world ++ [(oid, doc)])%list
        /\ status doc = "pending"
        /\ r_status r = "pending"
        /\ r_total r = total doc
        /\ r_order_id r = ObjectId_str oid).
Proof.
  intro out.
  apply (created_order_is_pending (Sample.request [Sample.two_neon] 0)
           Sample.world (fst out) (snd out)).
  apply surjective_pairing.
Defined.

(** ** Subtotal and total *)







(** ** Negative shipping *)

Lemma or_zero_negative (s : Q) : s < 0 -> Py.or_zero s = s.
Proof.
  intros H. unfold Py.or_zero.
  destruct (Qeq_bool s 0) eqn:E; [|reflexivity].
  apply Qeq_bool_eq in E. rewrite E in H. discriminate H.
Qed.

(** C7, as the code has it.  Take a request that succeeds when its shipping
    is 0.  With a negative shipping instead, the same request is rejected
    when the [Order] document is built: the model's [shipping >= 0]
    constraint fails, the handler answers with an HTTP error carrying that
    validation failure, and no order is written. *)
Theorem negative_shipping_rejected (order : OrderCreate) (w : World)
    (s : Q) r0 w0 :
  create_order (with_shipping order 0) w = (inr r0, w0) ->
  s < 0 ->
  exists c locs w',
    create_order (with_shipping order s) w
    = (inl (HTTPException c (StrOf (ValidationError "Order" locs))), w')
    /\ In "shipping" locs
    /\ db_order w' = db_order w.
Proof.
  intros H0 Hs.
  assert (NE : oc_items order <> []).
  { apply create_order_success in H0. destruct H0 as (its & NE & _). exact NE. }
  rewrite create_order_of_body in H0.
  rewrite (create_order_body_eq (with_shipping order 0) w NE) in H0.
  simpl oc_items in H0.
  destruct (normalize (oc_items order) 0 [] w) as [[e|[sub nis]] w1] eqn:N.
  { destruct e; discriminate H0. }
  destruct (normalize_worlds _ _ _ _ _ _ N) as [_ O1].
  destruct (for_each OrderItemSchema nis w1) as [[e|its] w2] eqn:F.
  { destruct e; discriminate H0. }
  pose proof (for_each_inv _ _ _ _ F) as [-> _]. clear H0.
  destruct (OrderSchema_negative_shipping its (oc_customer order)
              (Py.round2 sub) s (Py.round2 (sub + s)) "pending" w1)
    as (locs & S & I).
  { apply PyFacts.ge0_false. exact Hs. }
  exists 500%Z, locs, w1.
  split; [|split; [exact I | exact O1]].
  rewrite create_order_of_body.
  rewrite (create_order_body_eq (with_shipping order s) w NE).
  simpl oc_items. simpl oc_shipping. simpl oc_customer.
  rewrite N, F. cbv zeta. rewrite (or_zero_negative s Hs), S. reflexivity.
Qed.

Lemma negative_shipping_rejected_witness :
  exists c locs w',
    create_order (with_shipping (Sample.request [Sample.two_neon] 0) (-5))
                 Sample.world
    = (inl (HTTPException c (StrOf (ValidationError "Order" locs))), w')
    /\ In "shipping" locs
    /\ db_order w' = db_order Sample.world.
Proof.
  eapply (negative_shipping_rejected (Sample.request [Sample.two_neon] 0)
            Sample.world (-5)).
  - vm_compute. reflexivity.
  - reflexivity.
Defined.

(** C7, as the spec has it, fails.  Two posters at 89.00 with shipping 0
    are accepted; the same request with shipping -5 is not: the handler
    answers with an error built from the validation failure of the [Order]
    model on [shipping], and the order collection stays empty. *)
Lemma negative_shipping_not_accepted :
  (exists r w',
     create_order (Sample.request [Sample.two_neon] 0) Sample.world
     = (inr r, w'))
  /\ exists w',
       create_order (Sample.request [Sample.two_neon] (-5)) Sample.world
       = (inl (HTTPException 500 (StrOf (ValidationError "Order" ["shipping"]))),
          w')
       /\ db_order w' = [].
Proof.
  split.
  - do 2 eexists. vm_compute. reflexivity.
  - eexists. split; [vm_compute; reflexivity | reflexivity].
Qed.

(** ** Documents without a price *)






(** ** Request validation *)

Lemma validate_OrderItem_complete (j : OrderItemJson) :
  complete_item j ->
  exists it,
    validate_OrderItem j = inr it
    /\ j_product_id j = Some (product_id it)
    /\ j_title j = Some (title it)
    /\ j_price j = Some (price it)
    /\ j_quantity j = Some (quantity it)
    /\ j_image j = image it.
Proof.
  intros (pid & t & p & q & Hpid & Ht & Hp & Hp0 & Hq & Hq1).
  unfold validate_OrderItem, required, required_if.
  rewrite Hpid, Ht, Hp, Hq.
  apply PyFacts.ge0_true in Hp0. rewrite Hp0.
  assert (G : Py.ge1 q = true) by (apply Z.leb_le; exact Hq1).
  rewrite G. eexists. split; [reflexivity|]. simpl. repeat split.
Qed.

Lemma validate_OrderItem_lacking (j : OrderItemJson) :
  j_title j = None \/ j_price j = None ->
  exists locs, validate_OrderItem j = inl locs.
Proof.
  intros H. unfold validate_OrderItem, required, required_if.
  destruct (j_product_id j), (j_title j), (j_price j), (j_quantity j);
    try (destruct H; discriminate);
    repeat match goal with
           | |- context [if ?b then _ else _] => destruct b
           end;
    eexists; reflexivity.
Qed.

Lemma validate_items_complete (js : list OrderItemJson) :
  forall i,
    Forall complete_item js ->
    exists its,
      validate_items i js = inr its
      /\ Forall2 (fun j it =>
                    j_product_id j = Some (product_id it)
                    /\ j_title j = Some (title it)
                    /\ j_price j = Some (price it)
                    /\ j_quantity j = Some (quantity it)
                    /\ j_image j = image it) js its.
Proof.
  induction js as [|j rest IH]; intros i F.
  - exists []. split; [reflexivity | constructor].
  - inversion F as [|? ? Hj F']; subst.
    destruct (validate_OrderItem_complete j Hj) as (it & E & Hit).
    destruct (IH (S i) F') as (its & E' & Hits).
    exists (it :: its). simpl. rewrite E, E'. simpl.
    split; [reflexivity | constructor; assumption].
Qed.

Lemma validate_items_lacking (js : list OrderItemJson) :
  forall i,
    Exists (fun j => j_title j = None \/ j_price j = None) js ->
    exists locs, validate_items i js = inl locs.
Proof.
  induction js as [|j rest IH]; intros i X.
  - inversion X.
  - simpl. inversion X as [? ? Hj|? ? Hrest]; subst.
    + destruct (validate_OrderItem_lacking j Hj) as [locs E]. rewrite E.
      simpl. eexists. reflexivity.
    + destruct (IH (S i) Hrest) as [locs E]. rewrite E.
      destruct (under (Index i) (validate_OrderItem j)); eexists; reflexivity.
Qed.

(** C8, as the code has it.  The items of a request are parsed as
    [OrderItem], whose [title] and [price] are required.  With a
    structurally valid customer: a body whose items each supply a
    [product_id], a [title], a [price] of at least 0 and a [quantity] of at
    least 1 (the image is optional) passes validation, and the response is
    the outcome of [create_order] on the parsed request; a body with an item
    that omits [title] or [price] is answered 422 and the handler does not
    run. *)
Theorem complete_items_pass_validation
    (validate_email : string -> option string)
    (body : OrderCreateJson) js cj c (w : World) :
  j_items body = Some js ->
  j_customer body = Some cj ->
  validate_Customer validate_email cj = inr c ->
  (Forall complete_item js ->
   exists order,
     validate_OrderCreate validate_email body = inr order
     /\ oc_customer order = c
     /\ Forall2 (fun j it =>
                   j_product_id j = Some (product_id it)
                   /\ j_title j = Some (title it)
                   /\ j_price j = Some (price it)
                   /\ j_quantity j = Some (quantity it)
                   /\ j_image j = image it) js (oc_items order)
     /\ post_api_orders validate_email body w = respond (create_order order w))
  /\ (Exists (fun j => j_title j = None \/ j_price j = None) js ->
      exists locs, post_api_orders validate_email body w = (Http422 locs, w)).
Proof.
  intros Hi Hc Hv. split.
  - intros F. destruct (validate_items_complete js 0 F) as (its & E & Hits).
    eexists. unfold post_api_orders, validate_OrderCreate.
    rewrite Hi, Hc, Hv, E. simpl.
    split; [reflexivity|]. simpl. repeat split. exact Hits.
  - intros X. destruct (validate_items_lacking js 0 X) as (locs & E).
    unfold post_api_orders, validate_OrderCreate.
    rewrite Hi, Hc, Hv, E. simpl. eexists. reflexivity.
Qed.

Lemma complete_items_pass_validation_witness :
  exists order,
    validate_OrderCreate Sample.accept_email
                         (Sample.body [Sample.complete_json]) = inr order
    /\ oc_customer order = Sample.buyer
    /\ Forall2 (fun j it =>
                  j_product_id j = Some (product_id it)
                  /\ j_title j = Some (title it)
                  /\ j_price j = Some (price it)
                  /\ j_quantity j = Some (quantity it)
                  /\ j_image j = image it)
               [Sample.complete_json] (oc_items order)
    /\ post_api_orders Sample.accept_email
                       (Sample.body [Sample.complete_json]) Sample.world
       = respond (create_order order Sample.world).
Proof.
  apply (proj1 (complete_items_pass_validation Sample.accept_email
                  (Sample.body [Sample.complete_json]) [Sample.complete_json]
                  Sample.buyer_json Sample.buyer Sample.world
                  eq_refl eq_refl eq_refl)).
  constructor; [|constructor].
  exists "65f1c0de0000000000000001", "Neon Drive LED Poster", 89, 2%Z.
  repeat split; try reflexivity.
  - unfold Qle. simpl. lia.
  - lia.
Defined.

(** C8, as the spec has it, fails.  A body whose only item is
    [{product_id, quantity: 2}], with a valid customer, does not reach the
    handler: it is answered 422, for the missing [title] and [price] of
    item 0. *)
Lemma minimal_items_rejected :
  Forall minimal_item [Sample.minimal_json]
  /\ validate_Customer Sample.accept_email Sample.buyer_json
     = inr Sample.buyer
  /\ post_api_orders Sample.accept_email (Sample.body [Sample.minimal_json])
                     Sample.world
     = (Http422 [[Key "items"; Index 0; Key "title"];
                 [Key "items"; Index 0; Key "price"]],
        Sample.world).
Proof.
  split; [|split; reflexivity].
  constructor; [|constructor].
  unfold minimal_item. simpl. repeat split; eauto.
  eexists. split; [reflexivity | lia].
Qed.


(** * Further properties of the handler *)

(** ** The catalog and the trace of store operations *)

Lemma lookup_trace (pid : string) (w : World) :
  exists w',
    lookup pid w = (inr (resolve (db_product w) pid), w')
    /\ db_product w' = db_product w /\ db_order w' = db_order w
    /\ trace w' = (trace w ++ lookup_events pid)%list.
Proof.
  unfold lookup, try_except, bind, ObjectId_new, resolve, lookup_events.
  destruct (ObjectId_of_str pid) as [oid|]; simpl.
  - eexists. repeat split.
  - exists w. repeat split. rewrite app_nil_r. reflexivity.
Qed.

Ltac step_lookup_trace it w :=
  let w1 := fresh "w1" in
  let E := fresh "E" in
  let P := fresh "P" in
  let O := fresh "O" in
  let T := fresh "T" in
  destruct (lookup_trace (product_id it) w) as (w1 & E & P & O & T);
  simpl; unfold bind at 1; rewrite E.

Lemma normalize_trace_ok (its : list OrderItem) :
  forall sub acc w r w',
    normalize its sub acc w = (inr r, w') ->
    trace w' = (trace w ++ lookups its)%list.
Proof.
  induction its as [|it rest IH]; intros sub acc w r w' H.
  - inversion H. subst. unfold lookups. simpl. rewrite app_nil_r. reflexivity.
  - revert H. step_lookup_trace it w.
    destruct (resolve (db_product w) (product_id it)) as [prod|]; intros H.
    + apply IH in H. rewrite H, T. unfold lookups. simpl.
      rewrite app_assoc. reflexivity.
    + discriminate H.
Qed.


(** Whatever the outcome, what the handler leaves in the world differs from
    what it found by the order collection and the trace only. *)
Lemma create_order_body_catalog (order : OrderCreate) (w : World) res w' :
  create_order_body order w = (res, w') -> db_product w' = db_product w.
Proof.
  destruct (oc_items order) as [|it rest] eqn:I.
  { unfold create_order_body. rewrite I. intros H. inversion H. reflexivity. }
  assert (NE : oc_items order <> []) by (rewrite I; discriminate).
  rewrite (create_order_body_eq order w NE).
  destruct (normalize (oc_items order) 0 [] w) as [[e|[sub nis]] w1] eqn:N;
    destruct (normalize_worlds _ _ _ _ _ _ N) as [P1 _].
  { intros H. inversion H. subst. exact P1. }
  destruct (for_each OrderItemSchema nis w1) as [[e|its] w2] eqn:F;
    apply for_each_inv in F; destruct F as [-> F].
  { intros H. inversion H. subst. exact P1. }
  cbv zeta.
  destruct (OrderSchema _ _ _ _ _ _ w1) as [[e|doc] w3] eqn:S;
    apply OrderSchema_inv in S; destruct S as [-> S].
  { intros H. inversion H. subst. exact P1. }
  unfold create_document. intros H. inversion H. subst. simpl. exact P1.
Qed.

(** X1.  Order creation never writes to the catalog: after any request,
    accepted or rejected, the product collection is what it was. *)
Theorem create_order_keeps_catalog (order : OrderCreate) (w : World) res w' :
  create_order order w = (res, w') -> db_product w' = db_product w.
Proof.
  rewrite create_order_of_body.
  destruct (create_order_body order w) as [[[c d|e]|r] w0] eqn:B;
    intros H; inversion H; subst;
    eapply create_order_body_catalog; exact B.
Qed.

Lemma create_order_keeps_catalog_witness :
  db_product
    (snd (create_order (Sample.request [Sample.two_neon; Sample.bad_id] 0)
                       Sample.world))
  = db_product Sample.world.
Proof.
  apply (create_order_keeps_catalog
           (Sample.request [Sample.two_neon; Sample.bad_id] 0) Sample.world
           (fst (create_order
                   (Sample.request [Sample.two_neon; Sample.bad_id] 0)
                   Sample.world))).
  apply surjective_pairing.
Defined.

Lemma lookups_resolved (products : list Product) (its : list OrderItem) :
  Forall (resolves products) its ->
  List.length (lookups its) = List.length its.
Proof.
  induction 1 as [|it rest R _ IH]; [reflexivity|].
  unfold lookups in *. simpl. rewrite length_app, IH.
  unfold resolves, resolve, lookup_events in *.
  destruct (ObjectId_of_str (product_id it)); [reflexivity | congruence].
Qed.

(** X2.  A successful request queries the catalog once per cart item, in
    cart order, and then inserts one order document: these are all the
    store operations it performs. *)
Theorem success_trace (order : OrderCreate) (w : World) r w' :
  create_order order w = (inr r, w') ->
  trace w'
  = (trace w ++ lookups (oc_items order)
     ++ [InsertOne "order" (fresh_id (db_order w))])%list
  /\ List.length (lookups (oc_items order)) = List.length (oc_items order).
Proof.
  intros H.
  assert (NE : oc_items order <> []).
  { destruct (create_order_success _ _ _ _ H) as (its & NE & _). exact NE. }
  rewrite create_order_of_body, (create_order_body_eq order w NE) in H.
  destruct (normalize (oc_items order) 0 [] w) as [[e|[sub nis]] w1] eqn:N.
  { destruct e; discriminate H. }
  destruct (normalize_worlds _ _ _ _ _ _ N) as [P1 O1].
  pose proof (normalize_trace_ok _ _ _ _ _ _ N) as T1.
  destruct (normalize_ok _ _ _ _ _ _ _ N) as (new & _ & Hf & _).
  destruct (for_each OrderItemSchema nis w1) as [[e|its] w2] eqn:F.
  { destruct e; discriminate H. }
  apply for_each_inv in F. destruct F as [-> _]. cbv zeta in H.
  destruct (OrderSchema _ _ _ _ _ _ w1) as [[e|doc] w3] eqn:S.
  { destruct e; discriminate H. }
  apply OrderSchema_inv in S. destruct S as [-> _].
  unfold create_document in H. inversion H. subst. simpl.
  split.
  - rewrite T1, O1, app_assoc. reflexivity.
  - apply (lookups_resolved (db_product w)).
    clear - Hf. induction Hf as [|it ni rest new' [prod [R _]] _ IH];
      constructor; [unfold resolves; congruence | exact IH].
Qed.

Lemma success_trace_witness :
  trace (snd (create_order (Sample.request [Sample.two_neon; Sample.one_kit] 5)
                           Sample.world))
  = (trace Sample.world
     ++ lookups [Sample.two_neon; Sample.one_kit]
     ++ [InsertOne "order" (fresh_id (db_order Sample.world))])%list
  /\ List.length (lookups [Sample.two_neon; Sample.one_kit]) = 2%nat.
Proof.
  eapply (success_trace (Sample.request [Sample.two_neon; Sample.one_kit] 5)
            Sample.world).
  vm_compute. reflexivity.
Defined.



(** ** What a persisted order looks like *)

Lemma OrderItemSchema_bounds (ni : NormalizedItem) (w : World) it w' :
  OrderItemSchema ni w = (inr it, w') -> line_in_bounds it.
Proof.
  unfold OrderItemSchema, line_in_bounds.
  destruct (ni_title ni) as [t|]; simpl; [|discriminate].
  destruct (Py.ge0 (ni_price ni)) eqn:P; simpl; [|discriminate].
  destruct (Py.ge1 (ni_quantity ni)) eqn:Q; simpl; [|discriminate].
  intros H. inversion H. subst. simpl. split.
  - apply PyFacts.ge0_true. exact P.
  - apply Z.leb_le. exact Q.
Qed.

Lemma for_each_bounds (nis : list NormalizedItem) :
  forall w its w',
    for_each OrderItemSchema nis w = (inr its, w') ->
    Forall line_in_bounds its.
Proof.
  induction nis as [|ni rest IH]; intros w its w'; simpl.
  - intros H. inversion H. constructor.
  - unfold bind at 1.
    destruct (OrderItemSchema ni w) as [[e|it] w1] eqn:E; [discriminate|].
    unfold bind at 1.
    destruct (for_each OrderItemSchema rest w1) as [[e|its'] w2] eqn:F;
      [discriminate|].
    intros H. inversion H. subst.
    constructor; [eapply OrderItemSchema_bounds; eauto | eapply IH; eauto].
Qed.

(** X4.  Every order document the handler writes is within the bounds of
    the [Order] and [OrderItem] models: each line has a unit price of at
    least 0 and a quantity of at least 1, and subtotal, shipping and total
    are at least 0. *)
Theorem persisted_order_in_bounds (order : OrderCreate) (w : World) r w' :
  create_order order w = (inr r, w') ->
  exists oid doc,
    db_order w' = (db_order w ++ [(oid, doc)])%list /\ order_in_bounds doc.
Proof.
  intros H.
  destruct (create_order_success _ _ _ _ H)
    as (its & NE & _ & D & _ & _ & G1 & G2 & G3).
  exists (fresh_id (db_order w)), (order_doc_of order its).
  split; [exact D|]. unfold order_in_bounds.
  apply PyFacts.ge0_true in G1, G2, G3.
  split; [|repeat split; assumption].
  rewrite create_order_of_body, (create_order_body_eq order w NE) in H.
  destruct (normalize (oc_items order) 0 [] w) as [[e|[sub nis]] w1] eqn:N.
  { destruct e; discriminate H. }
  destruct (for_each OrderItemSchema nis w1) as [[e|its'] w2] eqn:F.
  { destruct e; discriminate H. }
  pose proof (for_each_bounds _ _ _ _ F) as B.
  destruct (normalize_worlds _ _ _ _ _ _ N) as [_ O1].
  apply for_each_inv in F. destruct F as [-> _]. cbv zeta in H.
  destruct (OrderSchema _ _ _ _ _ _ w1) as [[e|doc] w3] eqn:S.
  { destruct e; discriminate H. }
  apply OrderSchema_inv in S. destruct S as [-> [Hd _]].
  unfold create_document in H. inversion H as [[Hr Hw]].
  rewrite <- Hw in D. simpl in D. rewrite O1 in D.
  apply app_inv_head in D.
  assert (Hi : items doc = items (order_doc_of order its)) by congruence.
  simpl in Hi. rewrite Hd in Hi. simpl in Hi. subst its'. exact B.
Qed.

Lemma persisted_order_in_bounds_witness :
  exists oid doc,
    db_order (snd (create_order (Sample.request [Sample.one_sticker] 5)
                                Sample.world))
    = (db_order Sample.world ++ [(oid, doc)])%list
    /\ order_in_bounds doc.
Proof.
  eapply (persisted_order_in_bounds (Sample.request [Sample.one_sticker] 5)
            Sample.world).
  vm_compute. reflexivity.
Defined.

(** ** Catalog documents that cannot be sold *)




(** ** How far rounding moves the amounts *)







(** X8.  When the shipping of a request is zero, the total of the created
    order is its persisted subtotal. *)
Theorem zero_shipping_total_is_subtotal (order : OrderCreate) (w : World)
    r w' :
  create_order order w = (inr r, w') ->
  oc_shipping order == 0 ->
  exists oid doc,
    db_order w' = (db_order w ++ [(oid, doc)])%list
    /\ r_total r = total doc
    /\ total doc = subtotal doc.
Proof.
  intros H Z. apply create_order_success in H.
  destruct H as (its & _ & _ & D & _ & -> & _).
  exists (fresh_id (db_order w)), (order_doc_of order its).
  split; [exact D|]. split; [reflexivity|]. simpl.
  apply PyFacts.round2_comp. rewrite PyFacts.or_zero_eq, Z. ring.
Qed.

Lemma zero_shipping_total_is_subtotal_witness :
  exists oid doc,
    db_order (snd (create_order (Sample.request [Sample.two_neon] 0)
                                Sample.world))
    = (db_order Sample.world ++ [(oid, doc)])%list
    /\ 17800 # 100 = total doc
    /\ total doc = subtotal doc.
Proof.
  apply (zero_shipping_total_is_subtotal
           (Sample.request [Sample.two_neon] 0) Sample.world
           {| r_order_id := "000000000000000000000001";
              r_total := 17800 # 100; r_status := "pending" |}).
  - vm_compute. reflexivity.
  - reflexivity.
Defined.

(** ** The failures of the handler *)



Lemma create_order_error_status (order : OrderCreate) (w : World) e w' :
  create_order order w = (inl e, w') ->
  exists c d, e = HTTPException c d /\ (c = 400 \/ c = 500)%Z.
Proof.
  intros H. rewrite create_order_of_body in H.
  destruct (create_order_body order w) as [[e0|r0] w0] eqn:B.
  - destruct e0 as [c d|pe].
    + exists c, d. split; [congruence|]. left.
      destruct (oc_items order) as [|it0 rest] eqn:I.
      { unfold create_order_body in B. rewrite I in B. inversion B.
        reflexivity. }
      assert (NE : oc_items order <> []) by (rewrite I; discriminate).
      rewrite (create_order_body_eq order w NE) in B.
      destruct (normalize (oc_items order) 0 [] w) as [[e1|[sub nis]] w1] eqn:N.
      { apply normalize_err in N.
        destruct N as (pre & it & post & _ & _ & _ & ->). inversion B.
        reflexivity. }
      destruct (for_each OrderItemSchema nis w1) as [[e1|its] w2] eqn:F;
        apply for_each_inv in F; destruct F as [-> F].
      { destruct F as [locs ->]. discriminate B. }
      cbv zeta in B.
      destruct (OrderSchema _ _ _ _ _ _ w1) as [[e1|doc] w3] eqn:S;
        apply OrderSchema_inv in S; destruct S as [-> S].
      { destruct S as [locs ->]. discriminate B. }
      unfold create_document in B. discriminate B.
    + inversion H. eauto.
  - discriminate H.
Qed.

(** X10.  POST /api/orders answers with one of four status codes, 200, 400,
    422 or 500, whatever the body and the store. *)
Theorem post_api_orders_statuses (validate_email : string -> option string)
    (body : OrderCreateJson) (w : World) :
  In (status_of (fst (post_api_orders validate_email body w)))
     [200; 400; 422; 500]%Z.
Proof.
  unfold post_api_orders.
  destruct (validate_OrderCreate validate_email body) as [locs|order].
  { simpl. auto. }
  destruct (create_order order w) as [[e|r] w'] eqn:C.
  - destruct (create_order_error_status _ _ _ _ C) as (c & d & -> & [->| ->]);
      simpl; auto.
  - simpl. auto.
Qed.

(** ** Which bodies pass validation *)






(** * The read side: documents and their serialization *)

(** ** Dictionaries *)

Lemma dict_get_None (k : string) (d : Dict) :
  dict_get k d = None <-> ~ In k (keys d).
Proof.
  induction d as [|[k' v] rest IH]; simpl.
  - split; auto.
  - destruct (String.eqb k' k) eqn:E.
    + apply String.eqb_eq in E. split; [discriminate | intros H; exfalso; auto].
    + apply String.eqb_neq in E. rewrite IH. split.
      * intros H [A|A]; [congruence | auto].
      * intros H A. apply H. right. exact A.
Qed.

Lemma dict_get_set_same (k : string) (v : Value) (d : Dict) :
  dict_get k (dict_set k v d) = Some v.
Proof.
  induction d as [|[k' v'] rest IH]; simpl.
  - rewrite String.eqb_refl. reflexivity.
  - destruct (String.eqb k' k) eqn:E; simpl; rewrite E; auto.
Qed.

Lemma dict_get_set_other (k k' : string) (v : Value) (d : Dict) :
  k' <> k -> dict_get k' (dict_set k v d) = dict_get k' d.
Proof.
  intros N. induction d as [|[k0 v0] rest IH]; simpl.
  - apply String.eqb_neq in N. rewrite String.eqb_sym, N. reflexivity.
  - destruct (String.eqb k0 k) eqn:E; simpl.
    + apply String.eqb_eq in E. subst k0.
      apply String.eqb_neq in N. rewrite String.eqb_sym, N. reflexivity.
    + rewrite IH. reflexivity.
Qed.

Lemma dict_get_pop_other (k k' : string) (d : Dict) :
  k' <> k -> dict_get k' (dict_pop k d) = dict_get k' d.
Proof.
  intros N. induction d as [|[k0 v0] rest IH]; simpl; [reflexivity|].
  destruct (String.eqb k0 k) eqn:E; simpl.
  - apply String.eqb_eq in E. subst k0.
    apply String.eqb_neq in N. rewrite String.eqb_sym, N. reflexivity.
  - rewrite IH. reflexivity.
Qed.

Lemma keys_pop_incl (k k' : string) (d : Dict) :
  In k' (keys (dict_pop k d)) -> In k' (keys d).
Proof.
  induction d as [|[k0 v0] rest IH]; simpl; [auto|].
  destruct (String.eqb k0 k); simpl; intuition.
Qed.

Lemma keys_pop_NoDup (k : string) (d : Dict) :
  NoDup (keys d) -> NoDup (keys (dict_pop k d)).
Proof.
  induction d as [|[k0 v0] rest IH]; simpl; intros ND; [constructor|].
  inversion ND as [|? ? Hn ND']; subst.
  destruct (String.eqb k0 k); simpl; [exact ND'|].
  constructor; [|auto]. intros A. apply Hn. eapply keys_pop_incl. exact A.
Qed.

Lemma dict_get_pop_same (k : string) (d : Dict) :
  NoDup (keys d) -> dict_get k (dict_pop k d) = None.
Proof.
  induction d as [|[k0 v0] rest IH]; simpl; intros ND; [reflexivity|].
  inversion ND as [|? ? Hn ND']; subst.
  destruct (String.eqb k0 k) eqn:E; simpl.
  - apply String.eqb_eq in E. subst k0. apply dict_get_None. exact Hn.
  - rewrite E. auto.
Qed.

Lemma keys_set_incl (k k' : string) (v : Value) (d : Dict) :
  In k' (keys (dict_set k v d)) -> k' = k \/ In k' (keys d).
Proof.
  induction d as [|[k0 v0] rest IH]; simpl.
  - intuition.
  - destruct (String.eqb k0 k); simpl; intuition.
Qed.

Lemma keys_set_NoDup (k : string) (v : Value) (d : Dict) :
  NoDup (keys d) -> NoDup (keys (dict_set k v d)).
Proof.
  induction d as [|[k0 v0] rest IH]; simpl; intros ND.
  - constructor; [auto | constructor].
  - inversion ND as [|? ? Hn ND']; subst.
    destruct (String.eqb k0 k) eqn:E; simpl.
    + constructor; assumption.
    + constructor; [|auto]. intros A.
      destruct (keys_set_incl _ _ _ _ A) as [->|B]; [|auto].
      rewrite String.eqb_refl in E. discriminate.
Qed.

Lemma dict_set_app_fresh (k : string) (v v0 : Value) (a b : Dict) :
  ~ In k (keys a) ->
  dict_set k v (a ++ (k, v0) :: b)%list = (a ++ (k, v) :: b)%list.
Proof.
  induction a as [|[k1 v1] a IH]; simpl; intros N.
  - rewrite String.eqb_refl. reflexivity.
  - destruct (String.eqb k1 k) eqn:E.
    + apply String.eqb_eq in E. exfalso. auto.
    + rewrite IH; auto.
Qed.

(** ** [serialize_doc] *)

Section SerializeFacts.

Variable str_other : Value -> string.

Let conv (kv : string * Value) : string * Value :=
  (fst kv, stringified str_other (snd kv)).

Lemma keys_conv (d : Dict) : keys (map conv d) = keys d.
Proof. unfold keys. rewrite map_map. reflexivity. Qed.

Lemma fold_stringify (l : Dict) :
  forall pre,
    NoDup (keys (pre ++ l)%list) ->
    fold_left (stringify_entry str_other) l (map conv pre ++ l)%list
    = map conv (pre ++ l)%list.
Proof.
  induction l as [|[k v] l IH]; intros pre ND.
  - simpl. rewrite !app_nil_r. reflexivity.
  - assert (Hk : ~ In k (keys (map conv pre))).
    { rewrite keys_conv. unfold keys in *. rewrite map_app in ND.
      simpl in ND. apply NoDup_remove_2 in ND. intros A. apply ND.
      apply in_or_app. left. exact A. }
    assert (ND' : NoDup (keys ((pre ++ [(k, v)]) ++ l)%list)).
    { rewrite <- app_assoc. exact ND. }
    specialize (IH (pre ++ [(k, v)])%list ND').
    rewrite <- app_assoc in IH. simpl in IH.
    rewrite map_app in IH. simpl in IH. rewrite <- app_assoc in IH.
    simpl in IH. rewrite <- IH. simpl fold_left. f_equal.
    unfold stringify_entry. cbn [fst snd].
    change (conv (k, v)) with (k, stringified str_other v).
    unfold stringified. destruct (is_ObjectId v); [|reflexivity].
    apply dict_set_app_fresh. exact Hk.
Qed.

Lemma serialize_doc_map (doc : Dict) :
  NoDup (keys doc) ->
  serialize_doc str_other doc = map conv (id_renamed str_other doc).
Proof.
  intros ND. destruct doc as [|kv rest]; [reflexivity|].
  unfold serialize_doc. fold (id_renamed str_other (kv :: rest)).
  set (d := id_renamed str_other (kv :: rest)).
  assert (NDd : NoDup (keys d)).
  { unfold d, id_renamed. destruct (dict_get "_id" (kv :: rest)); [|exact ND].
    apply keys_set_NoDup, keys_pop_NoDup. exact ND. }
  apply (fold_stringify d []). exact NDd.
Qed.

Lemma dict_get_conv (k : string) (d : Dict) :
  dict_get k (map conv d) = option_map (stringified str_other) (dict_get k d).
Proof.
  induction d as [|[k' v] rest IH]; simpl; [reflexivity|].
  destruct (String.eqb k' k); [reflexivity | exact IH].
Qed.

Lemma id_renamed_NoDup (doc : Dict) :
  NoDup (keys doc) -> NoDup (keys (id_renamed str_other doc)).
Proof.
  intros ND. unfold id_renamed. destruct (dict_get "_id" doc); [|exact ND].
  apply keys_set_NoDup, keys_pop_NoDup. exact ND.
Qed.

Lemma id_renamed_no_id (doc : Dict) :
  NoDup (keys doc) -> dict_get "_id" (id_renamed str_other doc) = None.
Proof.
  intros ND. unfold id_renamed. destruct (dict_get "_id" doc) eqn:G; [|exact G].
  rewrite dict_get_set_other by discriminate.
  apply dict_get_pop_same. exact ND.
Qed.

Lemma stringified_plain (v : Value) :
  is_ObjectId (stringified str_other v) = false.
Proof.
  unfold stringified. destruct (is_ObjectId v) eqn:I; [reflexivity | exact I].
Qed.

Lemma id_renamed_other (doc : Dict) (k : string) :
  k <> "_id" ->
  (k = "id" -> dict_get "_id" doc = None) ->
  dict_get k (id_renamed str_other doc) = dict_get k doc.
Proof.
  intros N1 N2. unfold id_renamed. destruct (dict_get "_id" doc) eqn:G;
    [|reflexivity].
  assert (k <> "id") by (intros ->; specialize (N2 eq_refl); discriminate).
  rewrite dict_get_set_other by assumption.
  apply dict_get_pop_other. exact N1.
Qed.

(** X12.  [serialize_doc] renames [_id] to [id]: the result has no [_id]
    key, and when the document had one, [id] holds its text, [str(_id)],
    whatever [id] the document carried before. *)
Theorem serialize_doc_renames_id (doc : Dict) :
  NoDup (keys doc) ->
  dict_get "_id" (serialize_doc str_other doc) = None
  /\ forall v,
       dict_get "_id" doc = Some v ->
       dict_get "id" (serialize_doc str_other doc)
       = Some (VStr (py_str str_other v)).
Proof.
  intros ND. rewrite (serialize_doc_map doc ND), !dict_get_conv. split.
  - rewrite id_renamed_no_id by exact ND. reflexivity.
  - intros v G. unfold id_renamed. rewrite G, dict_get_set_same. reflexivity.
Qed.

(** X13.  After [serialize_doc] no value of the dictionary is an
    [ObjectId]: each one that was is replaced by its text. *)
Theorem serialize_doc_no_ObjectId (doc : Dict) :
  NoDup (keys doc) ->
  Forall (fun kv => is_ObjectId (snd kv) = false)
         (serialize_doc str_other doc).
Proof.
  intros ND. rewrite (serialize_doc_map doc ND).
  apply Forall_forall. intros kv H. apply in_map_iff in H.
  destruct H as ([k v] & <- & _). simpl. apply stringified_plain.
Qed.

Lemma conv_fixed (d : Dict) :
  Forall (fun kv => is_ObjectId (snd kv) = false) d -> map conv d = d.
Proof.
  induction 1 as [|[k v] rest H _ IH]; [reflexivity|].
  simpl in *. rewrite IH. unfold conv, stringified. simpl. rewrite H.
  reflexivity.
Qed.

(** X14.  [serialize_doc] is idempotent: serializing a serialized document
    changes nothing. *)
Theorem serialize_doc_idempotent (doc : Dict) :
  NoDup (keys doc) ->
  serialize_doc str_other (serialize_doc str_other doc)
  = serialize_doc str_other doc.
Proof.
  intros ND.
  assert (G : dict_get "_id" (serialize_doc str_other doc) = None).
  { rewrite (serialize_doc_map doc ND), dict_get_conv.
    rewrite id_renamed_no_id by exact ND. reflexivity. }
  assert (F : Forall (fun kv => is_ObjectId (snd kv) = false)
                     (serialize_doc str_other doc)).
  { rewrite (serialize_doc_map doc ND). apply Forall_forall.
    intros [k v] H. apply in_map_iff in H. destruct H as ([k' v'] & E & _).
    inversion E. simpl. apply stringified_plain. }
  assert (NDs : NoDup (keys (serialize_doc str_other doc))).
  { rewrite (serialize_doc_map doc ND), keys_conv.
    apply id_renamed_NoDup. exact ND. }
  rewrite (serialize_doc_map _ NDs). unfold id_renamed. rewrite G.
  apply conv_fixed. exact F.
Qed.

(** X15.  Under every key other than [_id], and other than an [id] that the
    [_id] overwrites, [serialize_doc] keeps the value of the document,
    except that a value that is itself an [ObjectId] becomes its text.  A
    list or a dictionary is kept as it is, with any [ObjectId] inside
    it. *)
Theorem serialize_doc_keeps_values (doc : Dict) (k : string) :
  NoDup (keys doc) ->
  k <> "_id" ->
  (k = "id" -> dict_get "_id" doc = None) ->
  dict_get k (serialize_doc str_other doc)
  = option_map (stringified str_other) (dict_get k doc).
Proof.
  intros ND N1 N2. rewrite (serialize_doc_map doc ND), dict_get_conv.
  f_equal. apply id_renamed_other; assumption.
Qed.

End SerializeFacts.

Ltac distinct_keys :=
  unfold keys; simpl;
  repeat (constructor; [simpl; intuition discriminate|]); constructor.

Lemma serialize_doc_renames_id_witness :
  dict_get "_id" (serialize_doc Docs.str_other Docs.linked) = None
  /\ forall v,
       dict_get "_id" Docs.linked = Some v ->
       dict_get "id" (serialize_doc Docs.str_other Docs.linked)
       = Some (VStr (py_str Docs.str_other v)).
Proof.
  apply (serialize_doc_renames_id Docs.str_other Docs.linked). distinct_keys.
Defined.

Lemma serialize_doc_no_ObjectId_witness :
  Forall (fun kv => is_ObjectId (snd kv) = false)
         (serialize_doc Docs.str_other Docs.linked).
Proof.
  apply (serialize_doc_no_ObjectId Docs.str_other Docs.linked). distinct_keys.
Defined.

Lemma serialize_doc_idempotent_witness :
  serialize_doc Docs.str_other (serialize_doc Docs.str_other Docs.linked)
  = serialize_doc Docs.str_other Docs.linked.
Proof.
  apply (serialize_doc_idempotent Docs.str_other Docs.linked). distinct_keys.
Defined.

Lemma serialize_doc_keeps_values_witness :
  dict_get "related" (serialize_doc Docs.str_other Docs.linked)
  = Some (VList [VObjectId (Sample.oid "65f1c0de0000000000000001")]).
Proof.
  apply (serialize_doc_keeps_values Docs.str_other Docs.linked "related").
  - distinct_keys.
  - discriminate.
  - discriminate.
Defined.

(** * The read side: the catalog endpoints *)

(** ** Building a response *)

Lemma ap_fails_l {A B} (k : string) (f : list string + (A -> B))
    (x : list string + A) :
  fails_at k f -> fails_at k (ap f x).
Proof.
  intros (e & -> & I). destruct x as [e'|a]; simpl.
  - exists (e ++ e')%list. split; [reflexivity | apply in_or_app; auto].
  - exists e. auto.
Qed.

Lemma ap_fails_r {A B} (k : string) (f : list string + (A -> B))
    (x : list string + A) :
  fails_at k x -> fails_at k (ap f x).
Proof.
  intros (e & -> & I). destruct f as [e'|g]; simpl.
  - exists (e' ++ e)%list. split; [reflexivity | apply in_or_app; auto].
  - exists e. auto.
Qed.

Lemma field_required_missing {A} (k : string) (conv : Value -> option A)
    (d : Dict) :
  dict_get k d = None -> fails_at k (field_required k conv d).
Proof.
  intros H. unfold field_required. rewrite H. exists [k]. simpl. auto.
Qed.

Ltac blame H :=
  repeat first [ solve [apply ap_fails_r; apply field_required_missing; exact H]
               | apply ap_fails_l ].

Lemma ProductResponse_new_missing (C : Conversions) (d : Dict) (k : string) :
  In k ("id" :: required_of_document) ->
  dict_get k d = None ->
  fails_at k (ProductResponse_new C d).
Proof.
  intros I H. unfold ProductResponse_new. simpl in I.
  repeat (destruct I as [<-|I]; [blame H|]). contradiction.
Qed.

Lemma product_response_incomplete (C : Conversions) (doc : Dict) (k : string) :
  NoDup (keys doc) ->
  In k required_of_document ->
  dict_get k doc = None ->
  exists locs,
    product_response C doc = inl (ValidationError "ProductResponse" locs)
    /\ In k locs.
Proof.
  intros ND I H.
  assert (G : dict_get k (serialize_doc (str_of C) doc) = None).
  { rewrite (serialize_doc_map (str_of C) doc ND), dict_get_conv.
    rewrite id_renamed_other; [rewrite H; reflexivity | |];
      simpl in I; intuition (subst; discriminate). }
  destruct (ProductResponse_new_missing C _ k (or_intror I) G)
    as (locs & E & L).
  exists locs. unfold product_response. rewrite E. auto.
Qed.

Lemma product_response_error (C : Conversions) (doc : Dict) e :
  product_response C doc = inl e ->
  exists locs, e = ValidationError "ProductResponse" locs.
Proof.
  unfold product_response.
  destruct (ProductResponse_new C _); intros H; inversion H. eauto.
Qed.

(** ** GET /api/products/{slug} *)

Lemma find_all_false {A} (f : A -> bool) (l : list A) :
  (forall x, In x l -> f x = false) -> find f l = None.
Proof.
  induction l as [|a l IH]; intros H; [reflexivity|].
  simpl. rewrite (H a (or_introl eq_refl)). apply IH.
  intros x I. apply H. right. exact I.
Qed.

(** X16.  When no document of the catalog has the requested slug, the
    answer is 404 "Product not found": the [HTTPException] raised inside
    the [try] passes the handler unchanged instead of becoming a 500. *)
Theorem get_product_not_found (C : Conversions) (cat : Catalog)
    (slug : string) :
  (forall d, In d cat -> field_is_str "slug" slug d = false) ->
  get_product C cat slug
  = inl (HTTPException 404 (Text "Product not found")).
Proof.
  intros H. unfold get_product, get_product_body.
  rewrite (find_all_false _ _ H). reflexivity.
Qed.

Lemma found_not_empty (slug : string) (cat : Catalog) (doc : Dict) :
  find (field_is_str "slug" slug) cat = Some doc -> doc <> [].
Proof.
  intros F. apply find_some in F. destruct F as [_ F]. intros ->.
  discriminate F.
Qed.

(** X17.  When the first document with the requested slug lacks a field
    that [ProductResponse] requires (title, price, category, in_stock or
    featured), the answer is 500 with the validation error naming that
    field: an incomplete document is never served. *)
Theorem get_product_incomplete (C : Conversions) (cat : Catalog)
    (slug : string) (doc : Dict) (k : string) :
  find (field_is_str "slug" slug) cat = Some doc ->
  NoDup (keys doc) ->
  In k required_of_document ->
  dict_get k doc = None ->
  exists locs,
    get_product C cat slug
    = inl (HTTPException 500 (StrOf (ValidationError "ProductResponse" locs)))
    /\ In k locs.
Proof.
  intros F ND I H.
  destruct (product_response_incomplete C doc k ND I H) as (locs & E & L).
  exists locs. split; [|exact L].
  unfold get_product, get_product_body. rewrite F.
  pose proof (found_not_empty _ _ _ F) as NE.
  destruct doc as [|kv rest]; [contradiction|]. rewrite E. reflexivity.
Qed.

Lemma stored_keys (oid : ObjectId) (p : ProductSchema) :
  NoDup (keys (stored oid p)).
Proof. distinct_keys. Qed.

Lemma product_response_stored (C : Conversions) (oid : ObjectId)
    (p : ProductSchema) :
  accepts_declared C ->
  product_response C (stored oid p) = inr (response_of oid p).
Proof.
  intros (Hs & Hf & Hb & Hl & Hd).
  unfold product_response.
  rewrite (serialize_doc_map (str_of C) _ (stored_keys oid p)).
  destruct p as [t sl de pr ca im ga st fe sp].
  unfold ProductResponse_new, field_required, field_optional, response_of,
    stored, model_dump, id_renamed, opt_value.
  destruct de, im, ga, sp; simpl;
    unfold stringified; simpl; rewrite ?Hs, ?Hf, ?Hb, ?Hl, ?Hd; simpl;
    reflexivity.
Qed.

Lemma get_product_found (C : Conversions) (cat : Catalog) (slug : string)
    (doc : Dict) (r : ProductResponse) :
  find (field_is_str "slug" slug) cat = Some doc ->
  doc <> [] ->
  product_response C doc = inr r ->
  get_product C cat slug = inr r.
Proof.
  intros F NE R. unfold get_product, get_product_body. rewrite F.
  destruct doc as [|kv rest]; [contradiction|]. rewrite R. reflexivity.
Qed.

(** X18.  A product stored by [create_document] comes back as it was
    written: when the first document with the requested slug is the one
    stored for product [p] under identifier [oid], the answer is 200 with
    the fields of [p] and [id] the text of [oid]. *)
Theorem get_product_round_trip (C : Conversions) (cat : Catalog)
    (slug : string) (oid : ObjectId) (p : ProductSchema) :
  accepts_declared C ->
  find (field_is_str "slug" slug) cat = Some (stored oid p) ->
  get_product C cat slug = inr (response_of oid p).
Proof.
  intros A F. apply (get_product_found C cat slug (stored oid p)).
  - exact F.
  - discriminate.
  - apply product_response_stored. exact A.
Qed.

(** ** GET /api/products and GET /api/products/featured *)

Lemma filter_all {A} (l : list A) : filter (fun _ => true) l = l.
Proof. induction l as [|a l IH]; simpl; [|rewrite IH]; reflexivity. Qed.

Lemma product_responses_incomplete (C : Conversions) (docs : list Dict) :
  Exists (fun d => NoDup (keys d) /\ incomplete_document d) docs ->
  exists locs,
    product_responses C docs = inl (ValidationError "ProductResponse" locs).
Proof.
  induction docs as [|d rest IH]; intros X; [inversion X|].
  simpl. destruct (product_response C d) as [e|r] eqn:E.
  - apply product_response_error in E. destruct E as [locs ->]. eauto.
  - inversion X as [? ? (ND & k & I & H)|? ? Hrest]; subst.
    + destruct (product_response_incomplete C d k ND I H) as (locs & E' & _).
      congruence.
    + destruct (IH Hrest) as [locs ->]. eauto.
Qed.

(** X19.  The listing is all or nothing: when one document of the catalog
    lacks a field that [ProductResponse] requires, GET /api/products
    answers 500 and lists no product at all. *)
Theorem list_products_all_or_nothing (C : Conversions) (cat : Catalog) :
  Exists (fun d => NoDup (keys d) /\ incomplete_document d) cat ->
  exists locs,
    list_products C cat
    = inl (HTTPException 500 (StrOf (ValidationError "ProductResponse" locs))).
Proof.
  intros X. unfold list_products, get_documents. rewrite filter_all.
  destruct (product_responses_incomplete C cat X) as [locs ->].
  exists locs. reflexivity.
Qed.

Lemma product_responses_stored (C : Conversions)
    (ops : list (ObjectId * ProductSchema)) :
  accepts_declared C ->
  product_responses C (map (fun op => stored (fst op) (snd op)) ops)
  = inr (map (fun op => response_of (fst op) (snd op)) ops).
Proof.
  intros A. induction ops as [|[oid p] rest IH]; [reflexivity|].
  cbn [map fst snd product_responses].
  rewrite (product_response_stored C oid p A), IH. reflexivity.
Qed.

(** X20.  A catalog made of stored products is listed whole and in order:
    one response per document, oldest first, each with the fields of its
    product and the text of its identifier. *)
Theorem list_products_round_trip (C : Conversions)
    (ops : list (ObjectId * ProductSchema)) :
  accepts_declared C ->
  list_products C (map (fun op => stored (fst op) (snd op)) ops)
  = inr (map (fun op => response_of (fst op) (snd op)) ops).
Proof.
  intros A. unfold list_products, get_documents. rewrite filter_all.
  rewrite (product_responses_stored C ops A). reflexivity.
Qed.



(** ** The read side at work *)

Lemma strict_accepts : accepts_declared strict.
Proof.
  repeat split; try reflexivity.
  intros ss. simpl. induction ss as [|s ss IH]; simpl; [|rewrite IH];
    reflexivity.
Qed.

Lemma get_product_not_found_witness :
  get_product strict Shelf.catalog "no-such-slug"
  = inl (HTTPException 404 (Text "Product not found")).
Proof.
  apply (get_product_not_found strict Shelf.catalog "no-such-slug").
  intros d [<-|[<-|[]]]; reflexivity.
Defined.

Lemma get_product_incomplete_witness :
  exists locs,
    get_product strict Shelf.catalog "draft"
    = inl (HTTPException 500 (StrOf (ValidationError "ProductResponse" locs)))
    /\ In "price" locs.
Proof.
  apply (get_product_incomplete strict Shelf.catalog "draft" Shelf.draft
           "price").
  - reflexivity.
  - distinct_keys.
  - simpl. auto.
  - reflexivity.
Defined.

Lemma get_product_round_trip_witness :
  get_product strict Shelf.catalog "carbon-wave-led-poster"
  = inr (response_of Shelf.poster_oid Shelf.poster).
Proof.
  apply (get_product_round_trip strict Shelf.catalog "carbon-wave-led-poster"
           Shelf.poster_oid Shelf.poster).
  - exact strict_accepts.
  - reflexivity.
Defined.

Lemma list_products_all_or_nothing_witness :
  exists locs,
    list_products strict Shelf.catalog
    = inl (HTTPException 500 (StrOf (ValidationError "ProductResponse" locs))).
Proof.
  apply (list_products_all_or_nothing strict Shelf.catalog).
  apply Exists_cons_tl. apply Exists_cons_hd. split; [distinct_keys|].
  exists "price". split; [simpl; auto | reflexivity].
Defined.

Lemma list_products_round_trip_witness :
  list_products strict
    (map (fun op => stored (fst op) (snd op))
         [(Shelf.poster_oid, Shelf.poster); (7%N, Shelf.poster)])
  = inr (map (fun op => response_of (fst op) (snd op))
             [(Shelf.poster_oid, Shelf.poster); (7%N, Shelf.poster)]).
Proof.
  apply (list_products_round_trip strict
           [(Shelf.poster_oid, Shelf.poster); (7%N, Shelf.poster)]).
  exact strict_accepts.
Defined.


(** ** Seeding *)

Lemma seed_empty :
  seed_products_if_empty []
  = map (fun op => stored (fst op) (snd op))
        (combine [1%N; 2%N; 3%N] sample_literals).
Proof. vm_compute. reflexivity. Qed.

(** X22.  Seeding runs once: a catalog that has a document is left as it
    is, an empty one receives the three samples, and seeding again changes
    nothing. *)
Theorem seeding_runs_once (cat : Catalog) :
  (cat <> [] -> seed_products_if_empty cat = cat)
  /\ List.length (seed_products_if_empty []) = 3%nat
  /\ seed_products_if_empty (seed_products_if_empty cat)
     = seed_products_if_empty cat.
Proof.
  split; [|split].
  - destruct cat; [contradiction | reflexivity].
  - rewrite seed_empty. reflexivity.
  - destruct cat; [|reflexivity]. rewrite seed_empty. reflexivity.
Qed.

Ltac served_as oid A :=
  match goal with
  | |- get_product ?C _ _ = inr (response_of _ ?p) =>
      apply (get_product_found C _ _ (stored oid p));
      [reflexivity | discriminate | apply product_response_stored; exact A]
  end.

(** X23.  What seeding writes is served: after the seeding of an empty
    catalog, GET /api/products/{slug} answers 200 for the slug of each
    sample, with the fields of that sample. *)
Theorem seeded_products_are_served (C : Conversions) (p : ProductSchema) :
  accepts_declared C ->
  In p sample_literals ->
  exists oid,
    get_product C (seed_products_if_empty []) (ps_slug p)
    = inr (response_of oid p).
Proof.
  intros A I. rewrite seed_empty. simpl in I.
  destruct I as [<-|[<-|[<-|I]]].
  - exists 1%N. served_as 1%N A.
  - exists 2%N. served_as 2%N A.
  - exists 3%N. served_as 3%N A.
  - contradiction.
Qed.

Lemma seeded_products_are_served_witness :
  exists oid,
    get_product strict (seed_products_if_empty []) "redline-interior-glow-kit"
    = inr (response_of oid (nth 2 sample_literals Shelf.poster)).
Proof.
  apply (seeded_products_are_served strict
           (nth 2 sample_literals Shelf.poster)).
  - exact strict_accepts.
  - simpl. auto.
Defined.

(** ** Identifiers as text *)

Lemma hex_digit_char (d : N) : (d < 16)%N -> hex_digit (hex_char d) = Some d.
Proof.
  intros H.
  assert (C : (d = 0 \/ d = 1 \/ d = 2 \/ d = 3 \/ d = 4 \/ d = 5 \/ d = 6
               \/ d = 7 \/ d = 8 \/ d = 9 \/ d = 10 \/ d = 11 \/ d = 12
               \/ d = 13 \/ d = 14 \/ d = 15)%N) by lia.
  repeat (destruct C as [->|C]; [reflexivity|]). subst. reflexivity.
Qed.

Lemma hex_render_value (k : nat) :
  forall n acc a,
    hex_value (hex_render k n acc) a
    = hex_value acc (a * 16 ^ N.of_nat k + n mod 16 ^ N.of_nat k)%N.
Proof.
  induction k as [|k IH]; intros n acc a.
  - simpl. f_equal. rewrite N.mod_1_r. lia.
  - cbn [hex_render]. rewrite IH. cbn [hex_value].
    rewrite hex_digit_char by (apply N.mod_lt; discriminate).
    f_equal. rewrite Nat2N.inj_succ, N.pow_succ_r'.
    rewrite (N.Div0.mod_mul_r n 16 (16 ^ N.of_nat k)). lia.
Qed.

Lemma hex_render_length (k : nat) :
  forall n acc,
    String.length (hex_render k n acc) = (k + String.length acc)%nat.
Proof.
  induction k as [|k IH]; intros n acc; [reflexivity|].
  cbn [hex_render]. rewrite IH. simpl. lia.
Qed.

Lemma hex_read_back (n : N) :
  (n < 2 ^ 96)%N -> hex_value (hex_render 24 n "") 0 = Some n.
Proof.
  intros H. rewrite hex_render_value. cbn [hex_value]. f_equal.
  assert (E : (16 ^ N.of_nat 24 = 2 ^ 96)%N) by reflexivity.
  rewrite E, N.mul_0_l, N.add_0_l. apply N.mod_small. exact H.
Qed.

(** X24.  The text of an identifier reads back as the identifier: the
    24 hexadecimal digits that [str(..)] gives for a twelve-byte
    [ObjectId] are accepted by [ObjectId(..)] and denote the same
    identifier. *)
Theorem ObjectId_text_round_trip (oid : ObjectId) :
  (oid < 2 ^ 96)%N -> ObjectId_of_str (ObjectId_str oid) = Some oid.
Proof.
  intros H. unfold ObjectId_of_str, ObjectId_str.
  rewrite hex_render_length.
  change ((24 + String.length "" =? 24)%nat) with true. cbv iota.
  apply hex_read_back. exact H.
Qed.

Lemma ObjectId_text_round_trip_witness :
  ObjectId_of_str (ObjectId_str (Sample.oid "65f1c0de0000000000000001"))
  = Some (Sample.oid "65f1c0de0000000000000001").
Proof.
  apply (ObjectId_text_round_trip (Sample.oid "65f1c0de0000000000000001")).
  reflexivity.
Defined.

(** ** From the catalog to an order *)



